(** * KanbanView: the Things 3 query engine ([things3.py]) and its web
      wrapper ([things3_api.py])

    The engine is a Python class whose methods assemble SQL text and hand
    it to SQLite.  The embedding below keeps the Python control flow
    (instance attributes, exceptions, the random generator used by
    [shuffle]) and gives every SQL statement its relational meaning over
    an explicit snapshot of the four tables it reads.

    What the embedding fixes:
    - a text is a string of 8-bit characters, a timestamp a whole number
      of seconds, [uuid] (the primary key) is never NULL;
    - SQL conditions are three-valued, and a row passes only on true;
    - where SQL leaves an order open (ties of ORDER BY, no ORDER BY, the
      representative of a group) the rows keep the order of the table;
    - identifiers and tag names interpolated into SQL text contain no
      quote character;
    - standard output is not modelled. *)

From Stdlib Require Import ZArith String Ascii List Permutation Lia.
From stdpp Require Import base option list sorting strings gmap.

Local Open Scope Z_scope.
Local Open Scope string_scope.

(** ** Python values, exceptions and the ambient random generator *)

(** What [sqlite3] hands to Python for one column: [None], an [int] or a
    [str].  Timestamps of the store are kept as whole seconds. *)
Inductive value : Type :=
  | NULL
  | INTEGER (z : Z)
  | TEXT (s : string).

#[global] Instance value_eq_dec : EqDecision value.
Proof. solve_decision. Defined.

(** A row as produced by [dict_factory]: an insertion-ordered dictionary
    from column names to values. *)
Definition dict : Type := list (string * value).

(** Configuration values: constructor arguments may be strings or
    booleans, the environment and the config file only give strings. *)
Inductive pyval : Type :=
  | PStr (s : string)
  | PBool (b : bool).

#[global] Instance pyval_eq_dec : EqDecision pyval.
Proof. solve_decision. Defined.

(** Python truthiness, [if v:]. *)
Definition truthy (v : pyval) : bool :=
  match v with
  | PStr s => negb (String.eqb s "")
  | PBool b => b
  end.

Definition truthy_opt (o : option pyval) : bool :=
  match o with
  | Some v => truthy v
  | None => false
  end.

(** [str(v)], as used by an f-string. *)
Definition py_str (v : pyval) : string :=
  match v with
  | PStr s => s
  | PBool true => "True"
  | PBool false => "False"
  end.

Inductive exn : Type :=
  | SystemExit (code : Z)
  | KeyError (key : string)
  | TypeError
  | AttributeError (attr : string)
  | OperationalError (msg : string)
  | DatabaseError (msg : string).

Inductive result (A : Type) : Type :=
  | Return (a : A)
  | Raise (e : exn).
Arguments Return {A} a.
Arguments Raise {A} e.

(** The state of Python's global random generator: the answers it will
    give to the coming [_randbelow] calls (an exhausted list answers 0). *)
Definition rng : Type := list nat.

(** Computations that may raise and that consume randomness. *)
Definition M (A : Type) : Type := rng -> result A * rng.

Definition ret {A} (a : A) : M A := fun g => (Return a, g).
Definition raise {A} (e : exn) : M A := fun g => (Raise e, g).
Definition bind {A B} (m : M A) (k : A -> M B) : M B :=
  fun g =>
    match m g with
    | (Return a, g') => k a g'
    | (Raise e, g') => (Raise e, g')
    end.

#[global] Instance M_ret : MRet M := @ret.
#[global] Instance M_bind : MBind M := fun A B k m => bind m k.

(** [try: body except sqlite3.OperationalError as error: handler] *)
Definition try_except_OperationalError {A} (body : M A)
    (handler : string -> M A) : M A :=
  fun g =>
    match body g with
    | (Raise (OperationalError msg), g') => handler msg g'
    | r => r
    end.

(** [for x in xs: body x] threading an accumulator. *)
Fixpoint for_each {A B} (body : A -> M B) (xs : list A) : M (list B) :=
  match xs with
  | [] => ret []
  | x :: xs' => y ← body x; ys ← for_each body xs'; ret (y :: ys)
  end.

(** ** [random.shuffle] *)

Definition randbelow (n : nat) : M nat :=
  fun g =>
    match g with
    | [] => (Return 0%nat, [])
    | r :: g' => (Return (r mod n)%nat, g')
    end.

(** [x[i], x[j] = x[j], x[i]] *)
Definition swap {A} (x : list A) (i j : nat) : list A :=
  match x !! i, x !! j with
  | Some a, Some b => <[j:=a]> (<[i:=b]> x)
  | _, _ => x
  end.

(** [for i in reversed(range(1, len(x))): j = randbelow(i + 1); swap],
    started at index [i]. *)
Fixpoint shuffle_from {A} (i : nat) (x : list A) : M (list A) :=
  match i with
  | O => ret x
  | S i' => j ← randbelow (S i); shuffle_from i' (swap x i j)
  end.

Definition shuffle {A} (x : list A) : M (list A) :=
  shuffle_from (length x - 1) x.

(** ** Dictionaries *)

(** [d[key]] *)
Fixpoint dict_get (d : dict) (key : string) : M value :=
  match d with
  | [] => raise (KeyError key)
  | (k, v) :: d' => if String.eqb k key then ret v else dict_get d' key
  end.

(** [d[key] = v]: an existing key keeps its position. *)
Fixpoint dict_set (d : dict) (key : string) (v : value) : dict :=
  match d with
  | [] => [(key, v)]
  | (k, w) :: d' =>
      if String.eqb k key then (k, v) :: d' else (k, w) :: dict_set d' key v
  end.

(** [Things3.dict_factory] (lines 123-129): [cursor.description] gives
    the column names, [row] the values. *)
Fixpoint dict_factory_from (dictionary : dict) (description : list string)
    (row : list value) : dict :=
  match description, row with
  | col :: description', v :: row' =>
      dict_factory_from (dict_set dictionary col v) description' row'
  | _, _ => dictionary
  end.

Definition dict_factory (description : list string) (row : list value) : dict :=
  dict_factory_from [] description row.

(** ** The anonymizer *)

(** [Things3.anonymize_string] (lines 113-121); [list(string)] of an
    [int] raises [TypeError]. *)
Definition anonymize_string (string : value) : M value :=
  match string with
  | NULL => ret NULL
  | TEXT s =>
      chars ← shuffle (list_ascii_of_string s);
      ret (TEXT (string_of_list_ascii chars))
  | INTEGER _ => raise TypeError
  end.

(** ** The store: tables, NULLs and three-valued conditions *)

(** A row of [TMTask]: to-dos, projects and headings alike. *)
Module TMTask.
Record t : Type := mk {
  uuid : string;
  title : option string;
  type : option Z;
  status : option Z;
  trashed : option Z;
  start : option Z;
  startDate : option Z;
  dueDate : option Z;
  stopDate : option Z;
  creationDate : option Z;
  userModificationDate : option Z;
  recurrenceRule : option string;
  instanceCreationPaused : option Z;
  nextInstanceStartDate : option Z;
  project : option string;
  area : option string;
  actionGroup : option string;
  todayIndex : option Z
}.
End TMTask.

Module TMArea.
Record t : Type := mk { uuid : string; title : option string }.
End TMArea.

Module TMTag.
Record t : Type := mk { uuid : string; title : option string }.
End TMTag.

Module TMTaskTag.
Record t : Type := mk { tasks : string; tags : string }.
End TMTaskTag.

(** What one statement sees: the four tables (in row order) and the
    clock behind SQLite's ['now'], in seconds since the epoch. *)
Record Snapshot : Type := {
  TABLE_TASK : list TMTask.t;
  TABLE_AREA : list TMArea.t;
  TABLE_TAG : list TMTag.t;
  TABLE_TASKTAG : list TMTaskTag.t;
  now : Z
}.

(** What [sqlite3.connect(path)] followed by [cursor.execute] finds at a
    path: a readable snapshot, or the exception the driver raises. *)
Definition World : Type := string -> result Snapshot.

(** SQL truth values: [None] is NULL/unknown. *)
Definition sqlbool : Type := option bool.

Definition sql_and (a b : sqlbool) : sqlbool :=
  match a, b with
  | Some false, _ | _, Some false => Some false
  | Some true, Some true => Some true
  | _, _ => None
  end.

Definition sql_or (a b : sqlbool) : sqlbool :=
  match a, b with
  | Some true, _ | _, Some true => Some true
  | Some false, Some false => Some false
  | _, _ => None
  end.

Definition sql_eq {A} `{EqDecision A} (a b : option A) : sqlbool :=
  match a, b with
  | Some x, Some y => Some (bool_decide (x = y))
  | _, _ => None
  end.

Definition sql_le (a b : option Z) : sqlbool :=
  match a, b with
  | Some x, Some y => Some (x <=? y)%Z
  | _, _ => None
  end.

Definition IS_NULL {A} (a : option A) : sqlbool :=
  Some (match a with None => true | Some _ => false end).

Definition IS_NOT_NULL {A} (a : option A) : sqlbool :=
  Some (match a with None => false | Some _ => true end).

Notation "a 'AND' b" := (sql_and a b) (at level 72, left associativity).
Notation "a 'OR' b" := (sql_or a b) (at level 73, left associativity).

Definition is_Some_bool {A} (a : option A) : bool :=
  match a with Some _ => true | None => false end.

(** A row passes WHERE, ON or HAVING only when the condition is true. *)
Definition holds (c : sqlbool) : bool :=
  match c with
  | Some true => true
  | _ => false
  end.

(** A column of a table alias that an outer join may have left NULL. *)
Definition col {R A} (f : R -> option A) (r : option R) : option A := r ≫= f.

(** [A LEFT OUTER JOIN table ON on]: the matches, or one all-NULL row. *)
Definition left_outer_join {R} (table : list R) (on : R -> sqlbool) : list (option R) :=
  match List.filter (fun r => holds (on r)) table with
  | [] => [None]
  | rs => Some <$> rs
  end.

(** Column values as Python receives them. *)
Definition int_value (a : option Z) : value :=
  match a with Some z => INTEGER z | None => NULL end.

Definition text_value (a : option string) : value :=
  match a with Some s => TEXT s | None => NULL end.

(** *** [date(x, "unixepoch")]

    The calendar day of a timestamp is its day number since 1970-01-01;
    the text is the proleptic Gregorian date of that day.  SQLite's
    limits on the year range are not modelled. *)

Definition digit (d : Z) : ascii := ascii_of_nat (48 + Z.to_nat (d mod 10))%nat.

Fixpoint digits (width : nat) (n : Z) (acc : string) : string :=
  match width with
  | O => acc
  | S w => digits w (n / 10) (String (digit n) acc)
  end.

Definition civil_from_days (day : Z) : Z * Z * Z :=
  let z := day + 719468 in
  let era := z / 146097 in
  let doe := z - era * 146097 in
  let yoe := (doe - doe / 1460 + doe / 36524 - doe / 146096) / 365 in
  let doy := doe - (365 * yoe + yoe / 4 - yoe / 100) in
  let mp := (5 * doy + 2) / 153 in
  let d := doy - (153 * mp + 2) / 5 + 1 in
  let m := if (mp <? 10)%Z then mp + 3 else mp - 9 in
  let y := yoe + era * 400 + (if (m <=? 2)%Z then 1 else 0) in
  (y, m, d).

Definition date_text (day : Z) : string :=
  let '(y, m, d) := civil_from_days day in
  digits 4 y ("-" ++ digits 2 m ("-" ++ digits 2 d "")).

Definition day_of (seconds : Z) : Z := seconds / 86400.

Definition date_unixepoch (x : option Z) : option string :=
  (fun s => date_text (day_of s)) <$> x.

(** *** ORDER BY

    Values compare as in SQLite: NULL first, then numbers, then text
    (bytewise).  One term is a key and a direction. *)

Definition value_compare (a b : value) : comparison :=
  match a, b with
  | NULL, NULL => Eq
  | NULL, _ => Lt
  | _, NULL => Gt
  | INTEGER x, INTEGER y => Z.compare x y
  | INTEGER _, TEXT _ => Lt
  | TEXT _, INTEGER _ => Gt
  | TEXT s, TEXT r => String.compare s r
  end.

Inductive direction : Type := ASC | DESC.

Definition order_term (R : Type) : Type := (R -> value) * direction.

Fixpoint order_compare {R} (terms : list (order_term R)) (a b : R) : comparison :=
  match terms with
  | [] => Eq
  | (key, dir) :: terms' =>
      match (match dir with
             | ASC => value_compare (key a) (key b)
             | DESC => value_compare (key b) (key a)
             end) with
      | Eq => order_compare terms' a b
      | c => c
      end
  end.

Definition order_le {R} (terms : list (order_term R)) (a b : R) : Prop :=
  order_compare terms a b <> Gt.

#[global] Instance order_le_dec {R} (terms : list (order_term R)) (a b : R) :
  Decision (order_le terms a b).
Proof. unfold order_le. solve_decision. Defined.

(** A stable sort: rows that compare equal keep their order. *)
Fixpoint insert_sorted {R} (le : R -> R -> Prop) `{forall a b, Decision (le a b)}
    (x : R) (rows : list R) : list R :=
  match rows with
  | [] => [x]
  | y :: rows' =>
      if decide (le x y) then x :: y :: rows'
      else y :: insert_sorted le x rows'
  end.

Fixpoint sort_stable {R} (le : R -> R -> Prop) `{forall a b, Decision (le a b)}
    (rows : list R) : list R :=
  match rows with
  | [] => []
  | x :: rows' => insert_sorted le x (sort_stable le rows')
  end.

Definition ORDER_BY {R} (terms : list (order_term R)) (rows : list R) : list R :=
  sort_stable (order_le terms) rows.

(** [GROUP BY key] without aggregates in the select list: one row per
    key, the first of its group. *)
Fixpoint GROUP_BY {R K} `{EqDecision K} (key : R -> K) (seen : list K)
    (rows : list R) : list R :=
  match rows with
  | [] => []
  | r :: rows' =>
      if bool_decide (key r ∈ seen) then GROUP_BY key seen rows'
      else r :: GROUP_BY key (key r :: seen) rows'
  end.

(** [SELECT DISTINCT]: the first of equal rows is kept. *)
Definition DISTINCT {R} `{EqDecision R} (rows : list R) : list R :=
  GROUP_BY (fun r => r) [] rows.

(** [SELECT COUNT(uuid) ... WHERE cond] *)
Definition COUNT {R} (cond : R -> sqlbool) (table : list R) : Z :=
  Z.of_nat (length (List.filter (fun r => holds (cond r)) table)).

(** *** The join behind every task view ([get_rows], lines 605-618) *)

Record joined : Type := {
  TASK : TMTask.t;
  PROJECT : option TMTask.t;
  AREA : option TMArea.t;
  HEADING : option TMTask.t;
  HEADPROJ : option TMTask.t;
  TAGS : option TMTaskTag.t;
  TAG : option TMTag.t
}.

Definition FROM_TASK_joins (db : Snapshot) : list joined :=
  task ← TABLE_TASK db;
  project ← left_outer_join (TABLE_TASK db)
    (fun p => sql_eq (TMTask.project task) (Some (TMTask.uuid p)));
  area ← left_outer_join (TABLE_AREA db)
    (fun a => sql_eq (TMTask.area task) (Some (TMArea.uuid a)));
  heading ← left_outer_join (TABLE_TASK db)
    (fun h => sql_eq (TMTask.actionGroup task) (Some (TMTask.uuid h)));
  headproj ← left_outer_join (TABLE_TASK db)
    (fun p => sql_eq (col TMTask.project heading) (Some (TMTask.uuid p)));
  tags ← left_outer_join (TABLE_TASKTAG db)
    (fun l => sql_eq (Some (TMTask.uuid task)) (Some (TMTaskTag.tasks l)));
  tag ← left_outer_join (TABLE_TAG db)
    (fun g => sql_eq (TMTaskTag.tags <$> tags) (Some (TMTag.uuid g)));
  [ {| TASK := task; PROJECT := project; AREA := area; HEADING := heading;
       HEADPROJ := headproj; TAGS := tags; TAG := tag |} ].

(** A statement as the driver sees it: the names in [cursor.description]
    and what [cursor.execute] followed by [fetchall] gives on a snapshot,
    the rows or the exception of the driver. *)
Record statement : Type := {
  description : list string;
  fetchall : Snapshot -> result (list (list value))
}.

(** The text a view hands to [get_rows]: conditions, an optional
    [GROUP BY TASK.uuid HAVING ...] and the ORDER BY terms. *)
Record conditions : Type := {
  WHERE : Snapshot -> joined -> sqlbool;
  GROUP_BY_uuid_HAVING : option (Snapshot -> joined -> sqlbool);
  ORDER : list (order_term joined)
}.

(** The scope text kept in [Things3.filter]; [uuid] is assumed free of
    quote characters, so that the text means what it says. *)
Inductive filter_text : Type :=
  | no_filter                        (* "" *)
  | filter_area (uuid : string)      (* "TASK.area = '{uuid}' AND" *)
  | filter_project (uuid : string).  (* "(TASK.project = '{uuid}' OR
                                          HEADING.project = '{uuid}') AND" *)

#[global] Instance filter_text_eq_dec : EqDecision filter_text.
Proof. solve_decision. Defined.

(** The two texts [IS_TASK] can hold. *)
Inductive mode_text : Type :=
  | MODE_TASK      (* "type = 0" *)
  | MODE_PROJECT.  (* "type = 1" *)

#[global] Instance mode_text_eq_dec : EqDecision mode_text.
Proof. solve_decision. Defined.

(** [printf("%d", s) = s]: [s] is the decimal text of a 64-bit integer,
    which is then the number SUM adds up. *)
Definition digit_value (c : ascii) : option Z :=
  let n := Z.of_nat (nat_of_ascii c) in
  if ((48 <=? n) && (n <=? 57))%Z then Some (n - 48) else None.

Fixpoint decimal_value (acc : Z) (s : string) : option Z :=
  match s with
  | EmptyString => Some acc
  | String c s' => d ← digit_value c; decimal_value (10 * acc + d) s'
  end.

Definition printf_d_fixpoint (s : string) : option Z :=
  match s with
  | EmptyString => None
  | String "0" EmptyString => Some 0
  | String "0" _ => None
  | String "-" (String "0" _) => None
  | String "-" EmptyString => None
  | String "-" s' =>
      n ← decimal_value 0 s';
      if (n <=? 9223372036854775808)%Z then Some (- n) else None
  | _ =>
      n ← decimal_value 0 s;
      if (n <=? 9223372036854775807)%Z then Some n else None
  end.

(** ** [class Things3] *)

(** What the class reads from its process when it is created. *)
Record Process : Type := {
  environ : string -> option string;
  config : string -> option (string -> option string);  (* ~/.kanbanviewrc *)
  user : string
}.

Module Things3.

(** The attributes an instance reads and that callers rebind.  Writes
    to standard output ([debug], the diagnostics) are left out. *)
Record t : Type := mk {
  IS_TASK : mode_text;
  database : pyval;
  filter : filter_text;
  tag_waiting : pyval;
  tag_mit : pyval;
  tag_cleanup : pyval;
  anonymize : pyval
}.

Definition FILE_DB : string :=
  "/Library/Containers/com.culturedcode.ThingsMac/Data/Library/" ++
  "Application Support/Cultured Code/Things/Things.sqlite3".

(** The class constants, as tests on a (possibly NULL) [TMTask] alias. *)
Definition type_is (m : mode_text) (r : option TMTask.t) : sqlbool :=
  sql_eq (col TMTask.type r)
         (Some (match m with MODE_TASK => 0 | MODE_PROJECT => 1 end)).
Definition IS_INBOX r := sql_eq (col TMTask.start r) (Some 0).
Definition IS_ANYTIME r := sql_eq (col TMTask.start r) (Some 1).
Definition IS_SOMEDAY r := sql_eq (col TMTask.start r) (Some 2).
Definition IS_SCHEDULED r := IS_NOT_NULL (col TMTask.startDate r).
Definition IS_NOT_SCHEDULED r := IS_NULL (col TMTask.startDate r).
Definition IS_DUE r := IS_NOT_NULL (col TMTask.dueDate r).
Definition IS_RECURRING r := IS_NOT_NULL (col TMTask.recurrenceRule r).
Definition IS_NOT_RECURRING r := IS_NULL (col TMTask.recurrenceRule r).
Definition IS_PROJECT r := sql_eq (col TMTask.type r) (Some 1).
Definition IS_TRASHED r := sql_eq (col TMTask.trashed r) (Some 1).
Definition IS_NOT_TRASHED r := sql_eq (col TMTask.trashed r) (Some 0).
Definition IS_OPEN r := sql_eq (col TMTask.status r) (Some 0).
Definition IS_CANCELLED r := sql_eq (col TMTask.status r) (Some 2).
Definition IS_DONE r := sql_eq (col TMTask.status r) (Some 3).
Definition RECURRING_IS_NOT_PAUSED r :=
  sql_eq (col TMTask.instanceCreationPaused r) (Some 0).
Definition RECURRING_HAS_NEXT_STARTDATE r :=
  IS_NOT_NULL (col TMTask.nextInstanceStartDate r).

(** [get_from_config] (lines 101-111): the argument if one was given,
    else a non-empty environment variable, else the entry of section
    DATABASE.  [config] is the class attribute, [environ] the process's. *)
Definition get_from_config (os : Process) (variable : option pyval)
    (preference : string) : option pyval :=
  match variable with
  | Some v => Some v
  | None =>
      if truthy_opt (PStr <$> environ os preference)
      then PStr <$> environ os preference
      else match config os "DATABASE" with
           | Some section => PStr <$> section preference
           | None => None
           end
  end.

(** [cfg if cfg else default] *)
Definition if_else (cfg : option pyval) (default : pyval) : pyval :=
  match cfg with
  | Some v => if truthy v then v else default
  | None => default
  end.

(** [__init__] (lines 79-99), with the class attributes as defaults. *)
Definition __init__ (os : Process)
    (database tag_waiting tag_mit tag_cleanup anonymize : option pyval) : t :=
  let cfg_waiting := get_from_config os tag_waiting "TAG_WAITING" in
  let cfg_anonymize := get_from_config os anonymize "ANONYMIZE" in
  let cfg_mit := get_from_config os tag_mit "TAG_MIT" in
  let cfg_cleanup := get_from_config os tag_cleanup "TAG_CLEANUP" in
  let cfg_database := get_from_config os database "THINGSDB" in
  {| IS_TASK := MODE_TASK;
     filter := no_filter;
     tag_waiting := if_else cfg_waiting (PStr "Waiting");
     anonymize := if_else cfg_anonymize (PBool false);
     tag_mit := if_else cfg_mit (PStr "MIT");
     tag_cleanup := if_else cfg_cleanup (PStr "Cleanup");
     database := if_else cfg_database
                   (PStr ("/Users/" ++ user os ++ "/" ++ FILE_DB)) |}.

(** [anonymize_tasks] (lines 131-137); [anonymize_task] is the body of
    its loop. *)
Definition anonymize_task (task : dict) : M dict :=
  title ← dict_get task "title";
  title ← anonymize_string title;
  let task := dict_set task "title" title in
  context ← dict_get task "context";
  context ← anonymize_string context;
  ret (dict_set task "context" context).

Definition anonymize_tasks (self : t) (tasks : list dict) : M (list dict) :=
  if truthy (anonymize self) then for_each anonymize_task tasks
  else ret tasks.

(** [sqlite3.connect(self.database)], [cursor.execute(sql)] and
    [cursor.fetchall()] with [dict_factory] as row factory. *)
Definition connect_execute_fetchall (world : World) (database : pyval)
    (sql : statement) : M (list dict) :=
  match database with
  | PStr path =>
      match world path with
      | Return db =>
          match fetchall sql db with
          | Return rows => ret (dict_factory (description sql) <$> rows)
          | Raise e => raise e
          end
      | Raise e => raise e
      end
  | PBool _ => raise TypeError
  end.

(** [execute_query] (lines 626-644): [sys.exit(2)] raises
    [SystemExit(2)]; any other exception passes through. *)
Definition execute_query (self : t) (world : World) (sql : statement)
    : M (list dict) :=
  try_except_OperationalError
    (tasks ← connect_execute_fetchall world (database self) sql;
     tasks ← anonymize_tasks self tasks;
     ret tasks)
    (fun error => raise (SystemExit 2)).

(** The CASE expressions of [get_rows] (lines 575-604). *)
Definition context (j : joined) : option string :=
  match col TMArea.title (AREA j) with
  | Some area_title => Some area_title
  | None =>
      match col TMTask.title (PROJECT j) with
      | Some project_title => Some project_title
      | None =>
          match col TMTask.title (HEADING j) with
          | Some heading_title => Some heading_title
          | None => None
          end
      end
  end.

Definition context_uuid (j : joined) : option string :=
  match TMArea.uuid <$> AREA j with
  | Some area_uuid => Some area_uuid
  | None =>
      match TMTask.uuid <$> PROJECT j with
      | Some project_uuid => Some project_uuid
      | None => None
      end
  end.

Definition due (j : joined) : option string :=
  match TMTask.recurrenceRule (TASK j) with
  | None => date_unixepoch (TMTask.dueDate (TASK j))
  | Some _ => None
  end.

(** The correlated count of open, untrashed rows filed under [uuid]. *)
Definition size (db : Snapshot) (uuid : string) : Z :=
  COUNT (fun project_task =>
           sql_eq (TMTask.project project_task) (Some uuid)
           AND IS_NOT_TRASHED (Some project_task)
           AND IS_OPEN (Some project_task))
        (TABLE_TASK db).

Definition type_name (j : joined) : option string :=
  match TMTask.type (TASK j) with
  | Some 0 => Some "task"
  | Some 1 => Some "project"
  | Some 2 => Some "heading"
  | _ => None
  end.

Definition select_columns (db : Snapshot) (j : joined) : list value :=
  [ TEXT (TMTask.uuid (TASK j));
    text_value (TMTask.title (TASK j));
    text_value (context j);
    text_value (context_uuid j);
    text_value (due j);
    text_value (date_unixepoch (TMTask.creationDate (TASK j)));
    text_value (date_unixepoch (TMTask.userModificationDate (TASK j)));
    text_value (date_unixepoch (TMTask.startDate (TASK j)));
    text_value (date_unixepoch (TMTask.stopDate (TASK j)));
    INTEGER (size db (TMTask.uuid (TASK j)));
    text_value (type_name j) ].

Definition columns : list string :=
  [ "uuid"; "title"; "context"; "context_uuid"; "due"; "created";
    "modified"; "started"; "stopped"; "size"; "type" ].

(** [WHERE {self.filter} ...] *)
Definition filter_condition (f : filter_text) (j : joined) : sqlbool :=
  match f with
  | no_filter => Some true
  | filter_area uuid => sql_eq (TMTask.area (TASK j)) (Some uuid)
  | filter_project uuid =>
      sql_eq (TMTask.project (TASK j)) (Some uuid)
      OR sql_eq (col TMTask.project (HEADING j)) (Some uuid)
  end.

Definition selected (self : t) (sql : conditions) (db : Snapshot) : list joined :=
  let rows :=
    List.filter
      (fun j => holds (filter_condition (filter self) j AND WHERE sql db j))
      (FROM_TASK_joins db) in
  match GROUP_BY_uuid_HAVING sql with
  | None => rows
  | Some having =>
      List.filter (fun j => holds (having db j))
        (GROUP_BY (fun j => TMTask.uuid (TASK j)) [] rows)
  end.

(** [get_rows] (lines 568-624): SELECT DISTINCT over the join. *)
Definition get_rows_sql (self : t) (sql : conditions) : statement :=
  {| description := columns;
     fetchall := fun db =>
       Return
         (DISTINCT
            (select_columns db <$> ORDER_BY (ORDER sql) (selected self sql db))) |}.

Definition get_rows (self : t) (world : World) (sql : conditions)
    : M (list dict) :=
  execute_query self world (get_rows_sql self sql).

(** *** The views *)

Definition by_TASK (f : TMTask.t -> option Z) (j : joined) : value :=
  int_value (f (TASK j)).

(** The container test shared by most views. *)
Definition containers_NOT_TRASHED (j : joined) : sqlbool :=
  (IS_NULL (col TMTask.title (PROJECT j)) OR IS_NOT_TRASHED (PROJECT j))
  AND (IS_NULL (col TMTask.title (HEADPROJ j)) OR IS_NOT_TRASHED (HEADPROJ j)).

Definition get_inbox (self : t) (world : World) : M (list dict) :=
  get_rows self world
    {| WHERE := fun db j =>
         let T := Some (TASK j) in
         IS_NOT_TRASHED T AND type_is (IS_TASK self) T AND IS_OPEN T
         AND IS_INBOX T;
       GROUP_BY_uuid_HAVING := None;
       ORDER := [(by_TASK TMTask.dueDate, DESC); (by_TASK TMTask.todayIndex, ASC)] |}.

Definition get_today (self : t) (world : World) : M (list dict) :=
  get_rows self world
    {| WHERE := fun db j =>
         let T := Some (TASK j) in
         IS_NOT_TRASHED T AND type_is (IS_TASK self) T AND IS_OPEN T
         AND (IS_ANYTIME T
              OR (IS_SOMEDAY T
                  AND sql_le (TMTask.startDate (TASK j)) (Some (now db))))
         AND IS_SCHEDULED T
         AND containers_NOT_TRASHED j;
       GROUP_BY_uuid_HAVING := None;
       ORDER := [(by_TASK TMTask.dueDate, DESC); (by_TASK TMTask.todayIndex, ASC)] |}.

Definition get_someday (self : t) (world : World) : M (list dict) :=
  get_rows self world
    {| WHERE := fun db j =>
         let T := Some (TASK j) in
         IS_NOT_TRASHED T AND type_is (IS_TASK self) T AND IS_OPEN T
         AND IS_SOMEDAY T AND IS_NOT_SCHEDULED T AND IS_NOT_RECURRING T
         AND containers_NOT_TRASHED j;
       GROUP_BY_uuid_HAVING := None;
       ORDER := [(by_TASK TMTask.dueDate, DESC); (by_TASK TMTask.creationDate, DESC)] |}.

Definition get_upcoming (self : t) (world : World) : M (list dict) :=
  get_rows self world
    {| WHERE := fun db j =>
         let T := Some (TASK j) in
         IS_NOT_TRASHED T AND type_is (IS_TASK self) T AND IS_OPEN T
         AND IS_SOMEDAY T AND IS_SCHEDULED T AND IS_NOT_RECURRING T
         AND containers_NOT_TRASHED j;
       GROUP_BY_uuid_HAVING := None;
       ORDER := [(by_TASK TMTask.startDate, ASC); (by_TASK TMTask.todayIndex, ASC)] |}.

(** [(SELECT uuid FROM TMTag WHERE title='{tag}')]: the first match;
    [tag] is assumed free of quote characters, so that the text means
    what it says. *)
Definition tag_uuid (db : Snapshot) (tag : string) : option string :=
  TMTag.uuid <$>
    head (List.filter (fun g => holds (sql_eq (TMTag.title g) (Some tag)))
                      (TABLE_TAG db)).

Definition get_tag (self : t) (world : World) (tag : pyval) : M (list dict) :=
  get_rows self world
    {| WHERE := fun db j =>
         let T := Some (TASK j) in
         IS_NOT_TRASHED T AND type_is (IS_TASK self) T AND IS_OPEN T
         AND IS_NOT_RECURRING T
         AND sql_eq (TMTaskTag.tags <$> TAGS j) (tag_uuid db (py_str tag))
         AND containers_NOT_TRASHED j;
       GROUP_BY_uuid_HAVING := None;
       ORDER := [(by_TASK TMTask.dueDate, DESC); (by_TASK TMTask.todayIndex, ASC)] |}.

Definition get_waiting (self : t) (world : World) : M (list dict) :=
  get_tag self world (tag_waiting self).

Definition get_mit (self : t) (world : World) : M (list dict) :=
  get_tag self world (tag_mit self).

(** The local [query] of [get_anytime] (lines 255-299): the second text
    replaces the first when [self.filter] is a non-empty string. *)
Definition anytime_query (self : t) : conditions :=
  let query :=
    {| WHERE := fun db j =>
         let T := Some (TASK j) in
         IS_NOT_TRASHED T AND type_is (IS_TASK self) T AND IS_OPEN T
         AND IS_ANYTIME T AND IS_NOT_SCHEDULED T
         AND ((IS_NULL (col TMTask.title (PROJECT j))
               OR (IS_ANYTIME (PROJECT j) AND IS_NOT_SCHEDULED (PROJECT j)
                   AND IS_NOT_TRASHED (PROJECT j)))
              AND (IS_NULL (col TMTask.title (HEADPROJ j))
                   OR (IS_ANYTIME (HEADPROJ j) AND IS_NOT_SCHEDULED (HEADPROJ j)
                       AND IS_NOT_TRASHED (HEADPROJ j))));
       GROUP_BY_uuid_HAVING := None;
       ORDER := [(by_TASK TMTask.dueDate, DESC); (by_TASK TMTask.todayIndex, ASC)] |} in
  if bool_decide (filter self = no_filter) then query
  else
    {| WHERE := fun db j =>
         let T := Some (TASK j) in
         IS_NOT_TRASHED T AND type_is (IS_TASK self) T AND IS_OPEN T
         AND IS_ANYTIME T AND IS_NOT_SCHEDULED T
         AND ((IS_NULL (col TMTask.title (PROJECT j))
               OR IS_NOT_TRASHED (PROJECT j))
              AND (IS_NULL (col TMTask.title (HEADPROJ j))
                   OR IS_NOT_TRASHED (HEADPROJ j)));
       GROUP_BY_uuid_HAVING := None;
       ORDER := [(by_TASK TMTask.dueDate, DESC); (by_TASK TMTask.todayIndex, ASC)] |}.

Definition get_anytime (self : t) (world : World) : M (list dict) :=
  get_rows self world (anytime_query self).

Definition get_completed (self : t) (world : World) : M (list dict) :=
  get_rows self world
    {| WHERE := fun db j =>
         let T := Some (TASK j) in
         IS_NOT_TRASHED T AND type_is (IS_TASK self) T AND IS_DONE T;
       GROUP_BY_uuid_HAVING := None;
       ORDER := [(by_TASK TMTask.stopDate, ASC)] |}.

Definition get_cancelled (self : t) (world : World) : M (list dict) :=
  get_rows self world
    {| WHERE := fun db j =>
         let T := Some (TASK j) in
         IS_NOT_TRASHED T AND type_is (IS_TASK self) T AND IS_CANCELLED T;
       GROUP_BY_uuid_HAVING := None;
       ORDER := [(by_TASK TMTask.stopDate, ASC)] |}.

Definition get_trashed (self : t) (world : World) : M (list dict) :=
  get_rows self world
    {| WHERE := fun db j =>
         let T := Some (TASK j) in
         IS_TRASHED T AND type_is (IS_TASK self) T;
       GROUP_BY_uuid_HAVING := None;
       ORDER := [(by_TASK TMTask.stopDate, ASC)] |}.

Definition get_projects (self : t) (world : World) : M (list dict) :=
  execute_query self world
    {| description := ["uuid"; "title"; "context"];
       fetchall := fun db =>
         Return
           ((fun task => [TEXT (TMTask.uuid task); text_value (TMTask.title task); NULL])
            <$> ORDER_BY [(fun task => text_value (TMTask.title task), ASC)]
                  (List.filter
                     (fun task =>
                        let T := Some task in
                        holds (IS_NOT_TRASHED T AND IS_PROJECT T AND IS_OPEN T))
                     (TABLE_TASK db))) |}.

Definition get_areas (self : t) (world : World) : M (list dict) :=
  execute_query self world
    {| description := ["uuid"; "title"];
       fetchall := fun db =>
         Return
           ((fun area => [TEXT (TMArea.uuid area); text_value (TMArea.title area)])
            <$> ORDER_BY [(fun area => text_value (TMArea.title area), ASC)]
                  (TABLE_AREA db)) |}.

Definition get_all (self : t) (world : World) : M (list dict) :=
  get_rows self world
    {| WHERE := fun db j =>
         let T := Some (TASK j) in
         IS_NOT_TRASHED T AND type_is (IS_TASK self) T
         AND containers_NOT_TRASHED j;
       GROUP_BY_uuid_HAVING := None;
       ORDER := [] |}.

Definition get_due (self : t) (world : World) : M (list dict) :=
  get_rows self world
    {| WHERE := fun db j =>
         let T := Some (TASK j) in
         IS_NOT_TRASHED T AND type_is (IS_TASK self) T AND IS_OPEN T
         AND IS_DUE T AND containers_NOT_TRASHED j;
       GROUP_BY_uuid_HAVING := None;
       ORDER := [(by_TASK TMTask.dueDate, ASC)] |}.

Definition get_lint (self : t) (world : World) : M (list dict) :=
  get_rows self world
    {| WHERE := fun db j =>
         let T := Some (TASK j) in
         IS_NOT_TRASHED T AND IS_OPEN T AND type_is (IS_TASK self) T
         AND (IS_SOMEDAY T OR IS_ANYTIME T)
         AND IS_NULL (TMTask.project (TASK j))
         AND IS_NULL (TMTask.area (TASK j))
         AND IS_NULL (TMTask.actionGroup (TASK j));
       GROUP_BY_uuid_HAVING := None;
       ORDER := [] |}.

Definition get_empty_projects (self : t) (world : World) : M (list dict) :=
  get_rows self world
    {| WHERE := fun db j =>
         let T := Some (TASK j) in
         IS_NOT_TRASHED T AND IS_OPEN T AND IS_PROJECT T AND IS_ANYTIME T;
       GROUP_BY_uuid_HAVING := Some (fun db j =>
         Some (COUNT (fun project_task =>
                        let P := Some project_task in
                        sql_eq (TMTask.project project_task)
                               (Some (TMTask.uuid (TASK j)))
                        AND IS_NOT_TRASHED P AND IS_OPEN P
                        AND (IS_ANYTIME P OR IS_SCHEDULED P
                             OR (IS_RECURRING P
                                 AND RECURRING_IS_NOT_PAUSED P
                                 AND RECURRING_HAS_NEXT_STARTDATE P)))
                     (TABLE_TASK db) =? 0)%Z);
       ORDER := [] |}.

(** [get_largest_projects] (lines 437-461). *)
Definition get_largest_projects (self : t) (world : World) : M (list dict) :=
  execute_query self world
    {| description := ["uuid"; "title"; "created"; "modified"; "tasks"];
       fetchall := fun db =>
         Return
           ((fun task =>
               [ TEXT (TMTask.uuid task);
                 text_value (TMTask.title task);
                 int_value (TMTask.creationDate task);
                 int_value (TMTask.userModificationDate task);
                 INTEGER (size db (TMTask.uuid task)) ])
            <$> ORDER_BY [(fun task => INTEGER (size db (TMTask.uuid task)), DESC)]
                  (GROUP_BY TMTask.uuid []
                     (List.filter
                        (fun task =>
                           let T := Some task in
                           holds (IS_NOT_TRASHED T AND IS_OPEN T AND IS_PROJECT T))
                        (TABLE_TASK db)))) |}.

(** [WITH RECURSIVE timeseries(x) AS (SELECT 0 UNION ALL SELECT x+1
    FROM timeseries LIMIT days)] *)
Definition timeseries (days : nat) : list Z := Z.of_nat <$> seq 0 days.

(** [SELECT COUNT(uuid), date(stamp, "unixepoch") AS DAY FROM TMTask AS
    TASK WHERE DAY NOT NULL AND cond GROUP BY DAY] *)
Definition COUNT_GROUP_BY_DAY (stamp : TMTask.t -> option Z)
    (cond : option TMTask.t -> sqlbool) (db : Snapshot) : list (Z * string) :=
  let DAY task := date_unixepoch (stamp task) in
  let rows :=
    List.filter (fun task => holds (IS_NOT_NULL (DAY task) AND cond (Some task)))
                (TABLE_TASK db) in
  (fun day => (COUNT (fun task => sql_eq (DAY task) (Some day)) rows, day))
  <$> DISTINCT (omap DAY rows).

(** [get_daystats] (lines 463-514): [date] is
    [date(julianday("now", "-{days} days"), "+" || x || " days")]. *)
Definition get_daystats (self : t) (world : World) : M (list dict) :=
  let days := 365%nat in
  execute_query self world
    {| description := ["date"; "created"; "completed"; "cancelled"; "trashed"];
       fetchall := fun db =>
         let ON_DAY (date : string) (sub : Z * string) :=
           sql_eq (Some (snd sub)) (Some date) in
         Return (
         x ← timeseries days;
         let date :=
           date_text (day_of (now db - Z.of_nat days * 86400 + x * 86400)) in
         CREATED ← left_outer_join
           (COUNT_GROUP_BY_DAY TMTask.creationDate
              (fun T => type_is (IS_TASK self) T) db) (ON_DAY date);
         CANCELLED ← left_outer_join
           (COUNT_GROUP_BY_DAY TMTask.stopDate
              (fun T => IS_CANCELLED T AND type_is (IS_TASK self) T) db)
           (ON_DAY date);
         TRASHED ← left_outer_join
           (COUNT_GROUP_BY_DAY TMTask.userModificationDate
              (fun T => IS_TRASHED T AND type_is (IS_TASK self) T) db)
           (ON_DAY date);
         CLOSED ← left_outer_join
           (COUNT_GROUP_BY_DAY TMTask.stopDate
              (fun T => IS_DONE T AND type_is (IS_TASK self) T) db)
           (ON_DAY date);
         [ [ TEXT date;
             int_value (fst <$> CREATED);
             int_value (fst <$> CLOSED);
             int_value (fst <$> CANCELLED);
             int_value (fst <$> TRASHED) ] ]) |}.

(** Addition of 64-bit integers as SUM does it, row after row: [None]
    as soon as a partial sum leaves the range. *)
Fixpoint add_int64 (acc : Z) (xs : list Z) : option Z :=
  match xs with
  | [] => Some acc
  | x :: xs' =>
      let sum := acc + x in
      if ((- 9223372036854775808 <=? sum) && (sum <=? 9223372036854775807))%Z
      then add_int64 sum xs'
      else None
  end.

(** [SUM(TAG.title)] over integers: NULL over no rows, and the error
    "integer overflow" of SQLite when the addition leaves the 64-bit
    range. *)
Definition SUM (xs : list Z) : result value :=
  match xs with
  | [] => Return NULL
  | _ =>
      match add_int64 0 xs with
      | Some sum => Return (INTEGER sum)
      | None => Raise (OperationalError "integer overflow")
      end
  end.

(** The numbers [get_minutes_today] adds up: the titles of the tags,
    where they are the decimal text of an integer, of the open to-dos in
    Anytime that have a start date, one for each pair of row and tag. *)
Definition planned_minutes (self : t) (db : Snapshot) : list Z :=
  let rows :=
    List.filter
      (fun j =>
         let T := Some (TASK j) in
         holds ((is_Some_bool <$> (printf_d_fixpoint <$> col TMTag.title (TAG j)))
                AND IS_NOT_TRASHED T AND type_is (IS_TASK self) T
                AND IS_OPEN T AND IS_ANYTIME T AND IS_SCHEDULED T
                AND containers_NOT_TRASHED j))
      (FROM_TASK_joins db) in
  omap (fun j => col TMTag.title (TAG j) ≫= printf_d_fixpoint) rows.

Definition get_minutes_today (self : t) (world : World) : M (list dict) :=
  execute_query self world
    {| description := ["minutes"];
       fetchall := fun db =>
         match SUM (planned_minutes self db) with
         | Return minutes => Return [ [ minutes ] ]
         | Raise e => Raise e
         end |}.

Definition get_cleanup (self : t) (world : World) : M (list dict) :=
  let result := [] in
  lint ← get_lint self world;
  let result := (result ++ lint)%list in
  empty ← get_empty_projects self world;
  let result := (result ++ empty)%list in
  tagged ← get_tag self world (tag_cleanup self);
  let result := (result ++ tagged)%list in
  ret result.

(** [get_not_implemented] (lines 563-566). *)
Definition get_not_implemented : list dict :=
  [ [("title", TEXT "not implemented")] ].

(** [mode_project] and [mode_task] (lines 646-654): [self.IS_TASK = ...]. *)
Definition mode_project (self : t) : t :=
  mk MODE_PROJECT (database self) (filter self) (tag_waiting self)
     (tag_mit self) (tag_cleanup self) (anonymize self).

Definition mode_task (self : t) : t :=
  mk MODE_TASK (database self) (filter self) (tag_waiting self)
     (tag_mit self) (tag_cleanup self) (anonymize self).

(** The names that the body of [class Things3] binds (lines 31-677).
    The class has no base class and no [__getattr__], and nothing adds a
    name to an instance: beside these, an engine has the attributes of
    [object] only. *)
Definition attributes : list string :=
  [ "FILE_DB"; "TABLE_TASK"; "TABLE_AREA"; "TABLE_TAG"; "TABLE_TASKTAG";
    "DATE_CREATE"; "DATE_MOD"; "DATE_DUE"; "DATE_START"; "DATE_STOP";
    "IS_INBOX"; "IS_ANYTIME"; "IS_SOMEDAY"; "IS_SCHEDULED"; "IS_NOT_SCHEDULED";
    "IS_DUE"; "IS_NOT_DUE"; "IS_RECURRING"; "IS_NOT_RECURRING"; "IS_TASK";
    "IS_PROJECT"; "IS_HEADING"; "IS_TRASHED"; "IS_NOT_TRASHED"; "IS_OPEN";
    "IS_CANCELLED"; "IS_DONE"; "RECURRING_IS_NOT_PAUSED";
    "RECURRING_HAS_NEXT_STARTDATE"; "MODE_TASK"; "MODE_PROJECT";
    "debug"; "user"; "database"; "filter"; "tag_waiting"; "tag_mit";
    "tag_cleanup"; "anonymize"; "config";
    "__init__"; "get_from_config"; "anonymize_string"; "dict_factory";
    "anonymize_tasks"; "get_inbox"; "get_today"; "get_someday"; "get_upcoming";
    "get_waiting"; "get_mit"; "get_tag"; "get_anytime"; "get_completed";
    "get_cancelled"; "get_trashed"; "get_projects"; "get_areas"; "get_all";
    "get_due"; "get_lint"; "get_empty_projects"; "get_largest_projects";
    "get_daystats"; "get_minutes_today"; "get_cleanup"; "get_not_implemented";
    "get_rows"; "execute_query"; "mode_project"; "mode_task"; "functions" ].

(** [getattr(self, name)] where a method without arguments that rebinds
    attributes is wanted: the class has the two setters above, and
    [None] for a name outside [attributes] is Python's AttributeError. *)
Definition setter (name : string) : option (t -> t) :=
  if String.eqb name "mode_project" then Some mode_project
  else if String.eqb name "mode_task" then Some mode_task
  else None.

(** The dispatch table [functions] (lines 656-677). *)
Definition functions : gmap string (t -> World -> M (list dict)) :=
  list_to_map
    [ ("inbox", get_inbox);
      ("today", get_today);
      ("next", get_anytime);
      ("backlog", get_someday);
      ("upcoming", get_upcoming);
      ("waiting", get_waiting);
      ("mit", get_mit);
      ("completed", get_completed);
      ("cancelled", get_cancelled);
      ("trashed", get_trashed);
      ("projects", get_projects);
      ("areas", get_areas);
      ("all", get_all);
      ("due", get_due);
      ("lint", get_lint);
      ("empty", get_empty_projects);
      ("cleanup", get_cleanup);
      ("top-proj", get_largest_projects);
      ("stats-day", get_daystats);
      ("stats-min-today", get_minutes_today) ].

End Things3.

(** ** [class Things3API] *)

(** [json.dumps(data)]: the text, kept as the data it encodes. *)
Inductive json : Type := json_dumps (data : list dict).

(** A Flask [Response]; an omitted [status] is 200. *)
Record Response : Type := {
  response : option json;
  content_type : option string;
  status : Z
}.

(** A Flask [Response] whose body is the bytes of a file. *)
Record FileResponse : Type := {
  file_data : string;
  file_content_type : string
}.

(** [s.endswith(suffix)] *)
Definition endswith (s suffix : string) : bool :=
  bool_decide (list_ascii_of_string suffix `suffix_of` list_ascii_of_string s).

Module Things3API.

Record t : Type := mk { things3 : Things3.t }.

(** [PATH = getcwd() + '/resources/'], for the working directory the
    class was loaded in. *)
Definition PATH (cwd : string) : string := cwd ++ "/resources/".

(** [on_get] (lines 35-53): six independent [if]s, then the file is read;
    [open_rb] stands for [open(filename, 'rb').read()], which returns the
    bytes or raises. *)
Definition on_get (cwd : string) (open_rb : string -> result string)
    (url : string) : result FileResponse :=
  let filename := PATH cwd ++ url in
  let content_type := "application/json" in
  let content_type := if endswith filename "css" then "text/css" else content_type in
  let content_type := if endswith filename "html" then "text/html" else content_type in
  let content_type :=
    if endswith filename "js" then "text/javascript" else content_type in
  let content_type := if endswith filename "png" then "image/png" else content_type in
  let content_type := if endswith filename "jpg" then "image/jpeg" else content_type in
  let content_type := if endswith filename "ico" then "image/x-ico" else content_type in
  match open_rb filename with
  | Return data =>
      Return {| file_data := data; file_content_type := content_type |}
  | Raise e => Raise e
  end.

Definition __init__ (os : Process) (database : option pyval) : t :=
  {| things3 := Things3.__init__ os database None None None None |}.

(** [api] (lines 55-65): the view's records as JSON, or the "not
    implemented" record with status 404 when [command] is not a key of
    [functions]. *)
Definition api (self : t) (world : World) (command : string) : M Response :=
  match Things3.functions !! command with
  | Some func =>
      data ← func (things3 self) world;
      let data := json_dumps data in
      ret {| response := Some data;
             content_type := Some "application/json";
             status := 200 |}
  | None =>
      let data := json_dumps Things3.get_not_implemented in
      ret {| response := Some data;
             content_type := Some "application/json";
             status := 404 |}
  end.

(** [api_toggle] (lines 67-70): [self.things3.toggle_mode()] looks the
    name up on the engine before anything is called or answered. *)
Definition api_toggle (self : t) : result (t * Response) :=
  match Things3.setter "toggle_mode" with
  | Some toggle_mode =>
      let self := {| things3 := toggle_mode (things3 self) |} in
      Return (self, {| response := None; content_type := None; status := 200 |})
  | None => Raise (AttributeError "toggle_mode")
  end.

(** [self.things3.filter = ...] *)
Definition set_filter (self : t) (f : filter_text) : t :=
  let s := things3 self in
  {| things3 :=
       Things3.mk (Things3.IS_TASK s) (Things3.database s) f
         (Things3.tag_waiting s) (Things3.tag_mit s) (Things3.tag_cleanup s)
         (Things3.anonymize s) |}.

(** [api_filter] (lines 72-80): two independent [if]s. *)
Definition api_filter (self : t) (mode uuid : string) : t * Response :=
  let self :=
    if String.eqb mode "area" && negb (String.eqb uuid "")
    then set_filter self (filter_area uuid) else self in
  let self :=
    if String.eqb mode "project" && negb (String.eqb uuid "")
    then set_filter self (filter_project uuid) else self in
  (self, {| response := None; content_type := None; status := 200 |}).

(** [api_filter_reset] (lines 82-85). *)
Definition api_filter_reset (self : t) : t * Response :=
  let self := set_filter self no_filter in
  (self, {| response := None; content_type := None; status := 200 |}).

End Things3API.

(** ** Sample data *)

Module Sample.

(** A row of [TMTask] with everything but its kind, place and title
    left at the values of a fresh open to-do in Anytime. *)
Definition row (uuid : string) (title : option string) (type : Z)
    (project area actionGroup : option string) : TMTask.t :=
  {| TMTask.uuid := uuid; TMTask.title := title; TMTask.type := Some type;
     TMTask.status := Some 0; TMTask.trashed := Some 0;
     TMTask.start := Some 1; TMTask.startDate := None;
     TMTask.dueDate := None; TMTask.stopDate := None;
     TMTask.creationDate := Some 1599955200;
     TMTask.userModificationDate := Some 1599955200;
     TMTask.recurrenceRule := None;
     TMTask.instanceCreationPaused := None;
     TMTask.nextInstanceStartDate := None;
     TMTask.project := project; TMTask.area := area;
     TMTask.actionGroup := actionGroup; TMTask.todayIndex := Some 0 |}.

Definition trash (r : TMTask.t) : TMTask.t :=
  {| TMTask.uuid := TMTask.uuid r; TMTask.title := TMTask.title r;
     TMTask.type := TMTask.type r; TMTask.status := TMTask.status r;
     TMTask.trashed := Some 1; TMTask.start := TMTask.start r;
     TMTask.startDate := TMTask.startDate r;
     TMTask.dueDate := TMTask.dueDate r; TMTask.stopDate := TMTask.stopDate r;
     TMTask.creationDate := TMTask.creationDate r;
     TMTask.userModificationDate := TMTask.userModificationDate r;
     TMTask.recurrenceRule := TMTask.recurrenceRule r;
     TMTask.instanceCreationPaused := TMTask.instanceCreationPaused r;
     TMTask.nextInstanceStartDate := TMTask.nextInstanceStartDate r;
     TMTask.project := TMTask.project r; TMTask.area := TMTask.area r;
     TMTask.actionGroup := TMTask.actionGroup r;
     TMTask.todayIndex := TMTask.todayIndex r |}.

Definition store (tasks : list TMTask.t) (areas : list TMArea.t) : Snapshot :=
  {| TABLE_TASK := tasks; TABLE_AREA := areas; TABLE_TAG := [];
     TABLE_TASKTAG := []; now := 1600000000 |}.

Definition path : string := "/Users/me/Things.sqlite3".

(** The store is readable at [path] only. *)
Definition world (db : Snapshot) : World :=
  fun p => if String.eqb p path then Return db
           else Raise (OperationalError "unable to open database file").

Definition nowhere : World :=
  fun p => Raise (OperationalError "unable to open database file").

Definition os : Process :=
  {| environ := fun k => if String.eqb k "TAG_WAITING" then Some "FromEnv" else None;
     config := fun s =>
       if String.eqb s "DATABASE"
       then Some (fun k => if String.eqb k "TAG_WAITING" then Some "FromFile"
                           else if String.eqb k "TAG_MIT" then Some "Important"
                           else None)
       else None;
     user := "me" |}.

Definition things3 : Things3.t :=
  Things3.__init__ os (Some (PStr path)) None None None None.

Definition anonymous : Things3.t :=
  Things3.__init__ os (Some (PStr path)) None None None (Some (PBool true)).

(** A project with a heading; one to-do under the heading, one directly
    in the project and also filed under an area. *)
Definition board : Snapshot :=
  store [ row "P" (Some "Project") 1 None None None;
          row "H" (Some "Heading") 2 (Some "P") None None;
          row "T1" (Some "Under heading") 0 None None (Some "H");
          row "T2" (Some "In project") 0 (Some "P") (Some "A") None ]
        [ TMArea.mk "A" (Some "Area") ].



(** A row of project kind filed under a project. *)
Definition nested_project : Snapshot :=
  store
    [ row "P" (Some "Project") 1 None None None;
      row "Q" (Some "Sub-project") 1 (Some "P") None None ]
    [].

(** [r] at another place of the schedule. *)
Definition plan (r : TMTask.t) (start : Z) (startDate : option Z) : TMTask.t :=
  {| TMTask.uuid := TMTask.uuid r; TMTask.title := TMTask.title r;
     TMTask.type := TMTask.type r; TMTask.status := TMTask.status r;
     TMTask.trashed := TMTask.trashed r; TMTask.start := Some start;
     TMTask.startDate := startDate;
     TMTask.dueDate := TMTask.dueDate r; TMTask.stopDate := TMTask.stopDate r;
     TMTask.creationDate := TMTask.creationDate r;
     TMTask.userModificationDate := TMTask.userModificationDate r;
     TMTask.recurrenceRule := TMTask.recurrenceRule r;
     TMTask.instanceCreationPaused := TMTask.instanceCreationPaused r;
     TMTask.nextInstanceStartDate := TMTask.nextInstanceStartDate r;
     TMTask.project := TMTask.project r; TMTask.area := TMTask.area r;
     TMTask.actionGroup := TMTask.actionGroup r;
     TMTask.todayIndex := TMTask.todayIndex r |}.

(** [r] closed with [status] at [stopDate]. *)
Definition close (r : TMTask.t) (status stopDate : Z) : TMTask.t :=
  {| TMTask.uuid := TMTask.uuid r; TMTask.title := TMTask.title r;
     TMTask.type := TMTask.type r; TMTask.status := Some status;
     TMTask.trashed := TMTask.trashed r; TMTask.start := TMTask.start r;
     TMTask.startDate := TMTask.startDate r;
     TMTask.dueDate := TMTask.dueDate r; TMTask.stopDate := Some stopDate;
     TMTask.creationDate := TMTask.creationDate r;
     TMTask.userModificationDate := TMTask.userModificationDate r;
     TMTask.recurrenceRule := TMTask.recurrenceRule r;
     TMTask.instanceCreationPaused := TMTask.instanceCreationPaused r;
     TMTask.nextInstanceStartDate := TMTask.nextInstanceStartDate r;
     TMTask.project := TMTask.project r; TMTask.area := TMTask.area r;
     TMTask.actionGroup := TMTask.actionGroup r;
     TMTask.todayIndex := TMTask.todayIndex r |}.

(** A desk with a to-do for every column of the board, a closed, a
    cancelled and a trashed one, a project with a to-do that carries two
    tags, and a project whose only to-do waits in Someday. *)
Definition desk : Snapshot :=
  {| TABLE_TASK :=
       [ plan (row "I" (Some "In the inbox") 0 None None None) 0 None;
         row "N" (Some "Next") 0 (Some "P") None None;
         plan (row "D" (Some "Today") 0 None (Some "A") None) 1 (Some 1599955200);
         plan (row "B" (Some "Some day") 0 None None None) 2 None;
         plan (row "U" (Some "Upcoming") 0 None None None) 2 (Some 1700000000);
         close (row "C" (Some "Done") 0 None None None) 3 1599955200;
         close (row "X" (Some "Dropped") 0 None None None) 2 1599955200;
         trash (row "Z" (Some "Trashed") 0 None None None);
         row "P" (Some "Project") 1 None (Some "A") None;
         row "E" (Some "Empty project") 1 None None None;
         plan (row "S" (Some "Not yet") 0 (Some "E") None None) 2 None ];
     TABLE_AREA :=
       [ TMArea.mk "A" (Some "Work"); TMArea.mk "H" (Some "Home");
         TMArea.mk "Q" None ];
     TABLE_TAG := [ TMTag.mk "G1" (Some "Waiting"); TMTag.mk "G2" (Some "30") ];
     TABLE_TASKTAG :=
       [ TMTaskTag.mk "N" "G1"; TMTaskTag.mk "N" "G2"; TMTaskTag.mk "D" "G2" ];
     now := 1600000000 |}.

(** The desk with tags that add up to more than a 64-bit integer holds. *)
Definition busy : Snapshot :=
  {| TABLE_TASK := TABLE_TASK desk; TABLE_AREA := TABLE_AREA desk;
     TABLE_TAG :=
       [ TMTag.mk "G1" (Some "9223372036854775807"); TMTag.mk "G2" (Some "1") ];
     TABLE_TASKTAG := [ TMTaskTag.mk "D" "G1"; TMTaskTag.mk "D" "G2" ];
     now := now desk |}.

(** A file that is no database. *)
Definition garbage : World :=
  fun p => Raise (DatabaseError "file is not a database").

(** A process with ANONYMIZE=false in its environment. *)
Definition shy : Process :=
  {| environ := fun k => if String.eqb k "ANONYMIZE" then Some "false" else None;
     config := fun s => None;
     user := "me" |}.


End Sample.

(** * The vocabulary of the statements *)

(** The type of the entries of [Things3.functions]. *)
Abbreviation view := (Things3.t -> World -> M (list dict)) (only parsing).

(** How [value] is chosen for the key [preference]: an argument that was
    given decides alone (a falsy one falls back to the class default
    without looking further); without an argument a non-empty environment
    variable wins, then a non-empty entry of section DATABASE of the
    config file, then the class default. *)
Definition chosen (os : Process) (preference : string)
    (argument : option pyval) (default value : pyval) : Prop :=
  (forall v, argument = Some v -> truthy v = true -> value = v) /\
  (forall v, argument = Some v -> truthy v = false -> value = default) /\
  (argument = None ->
   forall e, environ os preference = Some e -> e <> "" -> value = PStr e) /\
  (argument = None ->
   environ os preference = None \/ environ os preference = Some "" ->
   forall section c,
     config os "DATABASE" = Some section -> section preference = Some c ->
     c <> "" -> value = PStr c) /\
  (argument = None ->
   environ os preference = None \/ environ os preference = Some "" ->
   config os "DATABASE" = None \/
   (exists section, config os "DATABASE" = Some section /\
                    (section preference = None \/ section preference = Some "")) ->
   value = default).

(** What an outer join may put beside a row: a row of [table] that the
    reference [ref] names, or NULL when it names none. *)
Definition link {R} (table : list R) (key : R -> string) (ref : option string)
    (o : option R) : Prop :=
  match o with
  | Some r => r ∈ table /\ ref = Some (key r)
  | None => forall r, r ∈ table -> ref <> Some (key r)
  end.

(** The rows of the join, table by table. *)
Definition joined_in (db : Snapshot) (j : joined) : Prop :=
  TASK j ∈ TABLE_TASK db /\
  link (TABLE_TASK db) TMTask.uuid (TMTask.project (TASK j)) (PROJECT j) /\
  link (TABLE_AREA db) TMArea.uuid (TMTask.area (TASK j)) (AREA j) /\
  link (TABLE_TASK db) TMTask.uuid (TMTask.actionGroup (TASK j)) (HEADING j) /\
  link (TABLE_TASK db) TMTask.uuid (col TMTask.project (HEADING j)) (HEADPROJ j) /\
  link (TABLE_TASKTAG db) TMTaskTag.tasks (Some (TMTask.uuid (TASK j))) (TAGS j) /\
  link (TABLE_TAG db) TMTag.uuid (TMTaskTag.tags <$> TAGS j) (TAG j).

(** The records a task view returns when nothing is scrambled. *)
Definition rows_of (self : Things3.t) (db : Snapshot) (sql : conditions) : list dict :=
  dict_factory Things3.columns
  <$> DISTINCT
        (Things3.select_columns db
         <$> ORDER_BY (ORDER sql) (Things3.selected self sql db)).





(** The scope filter as a condition on the joined row. *)
Definition in_scope (f : filter_text) (j : joined) : Prop :=
  match f with
  | no_filter => True
  | filter_area uuid => TMTask.area (TASK j) = Some uuid
  | filter_project uuid =>
      TMTask.project (TASK j) = Some uuid \/
      exists h, HEADING j = Some h /\ TMTask.project h = Some uuid
  end.

(** A count as the outer join delivers it: NULL, not 0, for a day the
    grouped sub-select has no row for. *)
Definition activity (n : Z) : value :=
  if (n =? 0)%Z then NULL else INTEGER n.

(** How many rows of [TMTask] have their [stamp] on the day written
    [date] and satisfy [cond]. *)
Definition on_day (stamp : TMTask.t -> option Z) (date : string)
    (cond : option TMTask.t -> sqlbool) (db : Snapshot) : Z :=
  COUNT (fun task =>
           sql_eq (date_unixepoch (stamp task)) (Some date) AND cond (Some task))
        (TABLE_TASK db).

(** The row of the statistics for the day [x] days into the window. *)
Definition daystats_row (self : Things3.t) (db : Snapshot) (x : Z) : dict :=
  let date := date_text (day_of (now db) - 365 + x) in
  let kind T := Things3.type_is (Things3.IS_TASK self) T in
  [ ("date", TEXT date);
    ("created", activity (on_day TMTask.creationDate date kind db));
    ("completed",
     activity (on_day TMTask.stopDate date
                 (fun T => Things3.IS_DONE T AND kind T) db));
    ("cancelled",
     activity (on_day TMTask.stopDate date
                 (fun T => Things3.IS_CANCELLED T AND kind T) db));
    ("trashed",
     activity (on_day TMTask.userModificationDate date
                 (fun T => Things3.IS_TRASHED T AND kind T) db)) ].

(** The ORDER BY of the largest-projects view. *)
Definition by_size (db : Snapshot) : list (order_term TMTask.t) :=
  [(fun task => INTEGER (Things3.size db (TMTask.uuid task)), DESC)].

(** The rows filed under a project that are open and not trashed,
    whatever their kind. *)
Definition children (db : Snapshot) (uuid : string) : list TMTask.t :=
  filter (fun child =>
            TMTask.project child = Some uuid /\
            TMTask.trashed child = Some 0 /\
            TMTask.status child = Some 0)
         (TABLE_TASK db).

(** The record of the largest-projects view for the project [p]. *)
Definition largest_projects_row (db : Snapshot) (p : TMTask.t) : dict :=
  [ ("uuid", TEXT (TMTask.uuid p));
    ("title", text_value (TMTask.title p));
    ("created", int_value (TMTask.creationDate p));
    ("modified", int_value (TMTask.userModificationDate p));
    ("tasks", INTEGER (Z.of_nat (length (children db (TMTask.uuid p))))) ].

(** A value of a row fit for scrambling and its scrambled form. *)
Definition scrambled (v v' : value) : Prop :=
  match v, v' with
  | NULL, NULL => True
  | TEXT s, TEXT s' => list_ascii_of_string s' ≡ₚ list_ascii_of_string s
  | _, _ => False
  end.

(** A row of a task view before and after [anonymize_tasks]: title and
    context are scrambled in place, the other columns are untouched. *)
Definition scrambled_row (row row' : dict) : Prop :=
  exists uuid title context rest title' context',
    row = ("uuid", uuid) :: ("title", title) :: ("context", context) :: rest /\
    row' = ("uuid", uuid) :: ("title", title') :: ("context", context') :: rest /\
    scrambled title title' /\ scrambled context context'.

(** What leaves the engine for a record read from the store. *)
Definition shown (self : Things3.t) (row row' : dict) : Prop :=
  if truthy (Things3.anonymize self) then scrambled_row row row' else row' = row.

(** ** The views by name *)

(** The views that run through [get_rows]. *)
Definition task_views : list string :=
  [ "inbox"; "today"; "next"; "backlog"; "upcoming"; "waiting"; "mit";
    "completed"; "cancelled"; "trashed"; "all"; "due"; "lint"; "empty";
    "cleanup" ].

(** The views that hand a statement of their own to [execute_query]. *)
Definition direct_views : list string :=
  [ "projects"; "areas"; "top-proj"; "stats-day"; "stats-min-today" ].

(** The record [row] is the one of [task]: it carries its uuid. *)
Definition shows (row : dict) (task : TMTask.t) : Prop :=
  dict_get row "uuid" [] = (Return (TEXT (TMTask.uuid task)), []).






(** A text that means itself when it is pasted between single quotes
    into a statement: it holds no single quote.  The conditions above
    give the meaning of the statements for such texts only. *)
Definition quote_free (text : string) : Prop :=
  "'"%char ∉ list_ascii_of_string text.

(** A scope whose uuid can be pasted into a statement. *)
Definition scope_quote_free (f : filter_text) : Prop :=
  match f with
  | no_filter => True
  | filter_area uuid | filter_project uuid => quote_free uuid
  end.



(** A row of [TMTask] that "projects" and "top-proj" select. *)
Definition open_project (task : TMTask.t) : Prop :=
  TMTask.trashed task = Some 0 /\ TMTask.status task = Some 0 /\
  TMTask.type task = Some 1.

#[global] Instance open_project_dec (task : TMTask.t) : Decision (open_project task).
Proof. unfold open_project. solve_decision. Defined.

(** ORDER BY title: NULL first, then the texts byte by byte. *)
Definition title_le (a b : option string) : Prop :=
  match a, b with
  | None, _ => True
  | Some _, None => False
  | Some s, Some r => (s ?= r)%string <> Gt
  end.

(** The record of "areas" for an area and of "projects" for a project. *)
Definition area_row (area : TMArea.t) : dict :=
  [ ("uuid", TEXT (TMArea.uuid area)); ("title", text_value (TMArea.title area)) ].

Definition project_row (project : TMTask.t) : dict :=
  [ ("uuid", TEXT (TMTask.uuid project));
    ("title", text_value (TMTask.title project));
    ("context", NULL) ].




(** * Properties *)

(** ** The text helpers on known values *)

Example date_text_epoch : date_text 0 = "1970-01-01".
Proof. reflexivity. Qed.

Example date_text_leap_day : date_text 18321 = "2020-02-29".
Proof. reflexivity. Qed.

Example date_text_new_year : date_unixepoch (Some 1609459199) = Some "2020-12-31".
Proof. reflexivity. Qed.

Example printf_d_15 : printf_d_fixpoint "15" = Some 15.
Proof. reflexivity. Qed.

Example printf_d_leading_zero : printf_d_fixpoint "015" = None.
Proof. reflexivity. Qed.

Example printf_d_word : printf_d_fixpoint "Waiting" = None.
Proof. reflexivity. Qed.

(** ** Running the monad *)

Lemma bind_Return {A B} (m : M A) (k : A -> M B) g a g' :
  m g = (Return a, g') -> (x ← m; k x) g = k a g'.
Proof. intros H. cbv [mbind M_bind bind]. now rewrite H. Qed.

Lemma bind_Raise {A B} (m : M A) (k : A -> M B) g e g' :
  m g = (Raise e, g') -> (x ← m; k x) g = (Raise e, g').
Proof. intros H. cbv [mbind M_bind bind]. now rewrite H. Qed.

Section Execute.

Variables (self : Things3.t) (world : World) (path : string).
Hypothesis at_path : Things3.database self = PStr path.

(** A readable store and no anonymizing: the rows come back as
    dictionaries, untouched, and no randomness is used. *)
Lemma execute_query_plain db sql rows g :
  world path = Return db ->
  truthy (Things3.anonymize self) = false ->
  fetchall sql db = Return rows ->
  Things3.execute_query self world sql g =
    (Return (dict_factory (description sql) <$> rows), g).
Proof.
  intros Hdb Hanon Hrows.
  cbv [Things3.execute_query try_except_OperationalError
       Things3.connect_execute_fetchall Things3.anonymize_tasks
       mbind M_bind bind mret M_ret ret].
  now rewrite at_path, Hdb, Hrows, Hanon.
Qed.

(** The driver's OperationalError is turned into [sys.exit(2)]. *)
Lemma execute_query_OperationalError msg sql g :
  world path = Raise (OperationalError msg) ->
  Things3.execute_query self world sql g = (Raise (SystemExit 2), g).
Proof.
  intros Hdb.
  cbv [Things3.execute_query try_except_OperationalError
       Things3.connect_execute_fetchall mbind M_bind bind raise].
  now rewrite at_path, Hdb.
Qed.

Lemma get_rows_OperationalError msg sql g :
  world path = Raise (OperationalError msg) ->
  Things3.get_rows self world sql g = (Raise (SystemExit 2), g).
Proof. apply execute_query_OperationalError. Qed.

(** Every entry of the dispatch table ends in that exit. *)
Lemma functions_OperationalError msg command (func : view) g :
  world path = Raise (OperationalError msg) ->
  Things3.functions !! command = Some func ->
  func self world g = (Raise (SystemExit 2), g).
Proof.
  intros Hdb Hfunc.
  apply elem_of_list_to_map_2 in Hfunc.
  repeat (apply elem_of_cons in Hfunc as [Hfunc | Hfunc];
          [ injection Hfunc as _ ->;
            first [ eapply get_rows_OperationalError; eassumption
                  | eapply execute_query_OperationalError; eassumption
                  | idtac ]
          | ]).
  - (* get_cleanup stops at its first query *)
    unfold Things3.get_cleanup.
    erewrite bind_Raise; [reflexivity |].
    eapply get_rows_OperationalError; eassumption.
  - now apply elem_of_nil in Hfunc.
Qed.

End Execute.

(** ** Store failures (C1) *)

(** C1, as the code has it: when the store cannot be opened or read (the
    driver raises [sqlite3.OperationalError]), [execute_query] itself ends
    the process with [sys.exit(2)].  No failure value reaches the caller:
    every view of the dispatch table, and [api] on top of it, ends in that
    same [SystemExit(2)]. *)
Theorem execute_query_exits_inside_adapter
    (self : Things3.t) (world : World) (path msg : string) :
  Things3.database self = PStr path ->
  world path = Raise (OperationalError msg) ->
  (forall sql g,
     Things3.execute_query self world sql g = (Raise (SystemExit 2), g)) /\
  (forall command (func : view) g,
     Things3.functions !! command = Some func ->
     func self world g = (Raise (SystemExit 2), g) /\
     Things3API.api (Things3API.mk self) world command g
       = (Raise (SystemExit 2), g)).
Proof.
  intros Hpath Hdb. split.
  - intros sql g. eapply execute_query_OperationalError; eassumption.
  - intros command func g Hfunc.
    assert (func self world g = (Raise (SystemExit 2), g)) as Hexit
      by (eapply functions_OperationalError; eassumption).
    split; [exact Hexit |].
    unfold Things3API.api. rewrite Hfunc. simpl.
    now erewrite bind_Raise by exact Hexit.
Qed.

Lemma execute_query_exits_inside_adapter_witness :
  Things3.execute_query Sample.things3 Sample.nowhere
    (Things3.get_rows_sql Sample.things3
       {| WHERE := fun _ _ => Some true; GROUP_BY_uuid_HAVING := None; ORDER := [] |})
    [] = (Raise (SystemExit 2), []).
Proof.
  apply (proj1 (execute_query_exits_inside_adapter Sample.things3 Sample.nowhere
                  Sample.path "unable to open database file"
                  eq_refl eq_refl)).
Defined.

(** C1 as stated fails: with no store at the configured path, the adapter
    does not hand a failure to its caller, it raises [SystemExit(2)]. *)
Lemma adapter_terminates_the_process :
  Sample.nowhere Sample.path
    = Raise (OperationalError "unable to open database file") /\
  Things3.database Sample.things3 = PStr Sample.path /\
  Things3.get_areas Sample.things3 Sample.nowhere [] = (Raise (SystemExit 2), []) /\
  (forall rows g, Things3.get_areas Sample.things3 Sample.nowhere []
                  <> (Return rows, g)).
Proof. repeat split. intros rows g H. vm_compute in H. discriminate H. Qed.

(** ** Unknown views (C4) *)

(** C4: a name that is not a key of [functions] makes [api] return (not
    raise) a JSON response whose body is the one record
    [{"title": "not implemented"}]; the code gives that response the status
    404. *)
Theorem api_unknown_view_not_implemented
    (self : Things3API.t) (world : World) (command : string) (g : rng) :
  Things3.functions !! command = None ->
  Things3.get_not_implemented = [ [("title", TEXT "not implemented")] ] /\
  Things3API.api self world command g =
    (Return {| response := Some (json_dumps [ [("title", TEXT "not implemented")] ]);
               content_type := Some "application/json";
               status := 404 |}, g).
Proof.
  intros Hmiss. split; [reflexivity |].
  unfold Things3API.api. now rewrite Hmiss.
Qed.

Lemma api_unknown_view_not_implemented_witness :
  Things3API.api (Things3API.mk Sample.things3) Sample.nowhere "nonexistent" [] =
    (Return {| response := Some (json_dumps [ [("title", TEXT "not implemented")] ]);
               content_type := Some "application/json";
               status := 404 |}, []).
Proof.
  apply (proj2 (api_unknown_view_not_implemented
                  (Things3API.mk Sample.things3) Sample.nowhere "nonexistent" []
                  eq_refl)).
Defined.

(** ** The display mode (C6) *)

Lemma mode_task_mode_project self :
  Things3.mode_task (Things3.mode_project self) = Things3.mode_task self.
Proof. reflexivity. Qed.

(** C6, where the code falls short of the claim: [api_toggle] calls
    [toggle_mode] on the engine, a name that [class Things3] does not
    define (it has [mode_project] and [mode_task] only), so the call
    raises [AttributeError] on every engine state, no mode is switched
    and no response is returned; toggling twice is not possible. *)
Theorem api_toggle_raises_AttributeError (self : Things3API.t) :
  ("toggle_mode" ∉ Things3.attributes) /\
  Things3.setter "toggle_mode" = None /\
  Things3API.api_toggle self = Raise (AttributeError "toggle_mode") /\
  (forall state answer, Things3API.api_toggle self <> Return (state, answer)).
Proof.
  split; [| split; [reflexivity | split; [reflexivity | discriminate]]].
  unfold Things3.attributes. intros Hin.
  repeat (apply elem_of_cons in Hin as [Hin | Hin]; [discriminate Hin |]).
  now apply elem_of_nil in Hin.
Qed.

(** ** Configuration (C7) *)

Lemma truthy_PStr s : truthy (PStr s) = true <-> s <> "".
Proof.
  simpl. destruct (String.eqb_spec s ""); simpl; split; congruence.
Qed.

Ltac option_cases :=
  repeat match goal with
         | H : Some _ = Some _ |- _ => injection H as H; try subst
         | H : Some _ = None |- _ => discriminate H
         | H : None = Some _ |- _ => discriminate H
         | H : _ \/ _ |- _ => destruct H
         | H : _ /\ _ |- _ => destruct H
         | H : exists _, _ |- _ => destruct H
         | H : ?x = Some _, H' : ?x = Some _ |- _ => rewrite H in H'
         | H : ?x = Some _, H' : ?x = None |- _ => rewrite H in H'
         | |- context [String.eqb ?x ""] => destruct (String.eqb_spec x "")
         end.

Lemma get_from_config_chosen os preference argument default :
  chosen os preference argument default
    (Things3.if_else (Things3.get_from_config os argument preference) default).
Proof.
  unfold chosen, Things3.if_else, Things3.get_from_config.
  destruct argument as [v |].
  - destruct (truthy v) eqn:Hv; repeat split; intros; option_cases; congruence.
  - destruct (environ os preference) as [e |] eqn:He; simpl;
      [destruct (String.eqb_spec e "") as [Heq | Hne]; [subst e |]; simpl |];
      (destruct (config os "DATABASE") as [section |] eqn:Hc; simpl;
       [destruct (section preference) as [c |] eqn:Hs; simpl;
        [destruct (String.eqb_spec c "") as [Heq | Hcne]; [subst c |]; simpl |] |]);
      repeat split; intros; option_cases; simpl; congruence.
Qed.

(** C7, as the code has it: for each of the five keys the constructor
    argument comes first, then the environment variable, then the config
    file, then the class default (the order the docstring of
    [get_from_config] gives). *)
Theorem configuration_priority (os : Process)
    (database tag_waiting tag_mit tag_cleanup anonymize : option pyval) :
  let self :=
    Things3.__init__ os database tag_waiting tag_mit tag_cleanup anonymize in
  chosen os "THINGSDB" database
    (PStr ("/Users/" ++ user os ++ "/" ++ Things3.FILE_DB))
    (Things3.database self) /\
  chosen os "TAG_WAITING" tag_waiting (PStr "Waiting") (Things3.tag_waiting self) /\
  chosen os "TAG_MIT" tag_mit (PStr "MIT") (Things3.tag_mit self) /\
  chosen os "TAG_CLEANUP" tag_cleanup (PStr "Cleanup") (Things3.tag_cleanup self) /\
  chosen os "ANONYMIZE" anonymize (PBool false) (Things3.anonymize self).
Proof.
  simpl. repeat split; apply get_from_config_chosen.
Qed.

(** C7 as stated fails: with TAG_WAITING set in the environment and in the
    config file, an explicit argument still decides; the environment only
    counts when no argument is given. *)
Lemma argument_overrides_environment :
  environ Sample.os "TAG_WAITING" = Some "FromEnv" /\
  Things3.tag_waiting
    (Things3.__init__ Sample.os None (Some (PStr "FromArg")) None None None)
    = PStr "FromArg" /\
  Things3.tag_waiting (Things3.__init__ Sample.os None None None None None)
    = PStr "FromEnv".
Proof. repeat split. Qed.

(** ** The scope filter (C10) *)

(** C10: [api_filter] with an empty id, or with a kind other than "area"
    and "project", answers 200 and leaves the engine as it was, so later
    queries are not affected; with a non-empty id, kind "area" or
    "project" stores the corresponding filter (and nothing else changes). *)
Theorem api_filter_frame (self : Things3API.t) (mode uuid : string) :
  (Things3API.api_filter self mode uuid).2
    = {| response := None; content_type := None; status := 200 |} /\
  (uuid = "" \/ (mode <> "area" /\ mode <> "project") ->
   (Things3API.api_filter self mode uuid).1 = self /\
   forall world command g,
     Things3API.api (Things3API.api_filter self mode uuid).1 world command g
     = Things3API.api self world command g) /\
  (uuid <> "" -> mode = "area" ->
   (Things3API.api_filter self mode uuid).1
     = Things3API.set_filter self (filter_area uuid)) /\
  (uuid <> "" -> mode = "project" ->
   (Things3API.api_filter self mode uuid).1
     = Things3API.set_filter self (filter_project uuid)) /\
  (Things3.filter (Things3API.things3 (Things3API.api_filter self mode uuid).1)
     <> Things3.filter (Things3API.things3 self) ->
   uuid <> "" /\ (mode = "area" \/ mode = "project")).
Proof.
  unfold Things3API.api_filter.
  destruct (String.eqb_spec uuid "") as [Hid | Hid];
    destruct (String.eqb_spec mode "area") as [Harea | Harea];
    destruct (String.eqb_spec mode "project") as [Hproj | Hproj];
    try subst uuid; try subst mode; try discriminate Hproj; simpl;
    repeat split; try congruence; try tauto; intuition congruence.
Qed.

Lemma api_filter_frame_witness :
  (Things3API.api_filter (Things3API.mk Sample.things3) "tag" "A").1
    = Things3API.mk Sample.things3 /\
  (Things3API.api_filter (Things3API.mk Sample.things3) "area" "").1
    = Things3API.mk Sample.things3 /\
  Things3.filter
    (Things3API.things3
       (Things3API.api_filter (Things3API.mk Sample.things3) "area" "A").1)
    = filter_area "A".
Proof.
  split; [| split].
  - apply (proj1 (proj2 (api_filter_frame (Things3API.mk Sample.things3) "tag" "A"))).
    right. split; discriminate.
  - apply (proj1 (proj2 (api_filter_frame (Things3API.mk Sample.things3) "area" ""))).
    left. reflexivity.
  - rewrite (proj1 (proj2 (proj2 (api_filter_frame (Things3API.mk Sample.things3)
                                     "area" "A")))); [reflexivity | discriminate | reflexivity].
Defined.

Lemma api_filter_reset_clears self :
  Things3.filter (Things3API.things3 (Things3API.api_filter_reset self).1) = no_filter.
Proof. reflexivity. Qed.

(** ** Conditions, joins and the rows of [get_rows] *)

Lemma holds_and a b : holds (a AND b) = true <-> holds a = true /\ holds b = true.
Proof. destruct a as [[] |], b as [[] |]; simpl; intuition congruence. Qed.

Lemma holds_or a b : holds (a OR b) = true <-> holds a = true \/ holds b = true.
Proof. destruct a as [[] |], b as [[] |]; simpl; intuition congruence. Qed.

Lemma holds_eq {A} `{EqDecision A} (a : option A) (x : A) :
  holds (sql_eq a (Some x)) = true <-> a = Some x.
Proof.
  destruct a as [y |]; simpl; [| intuition congruence].
  case_bool_decide; simpl; intuition congruence.
Qed.

Lemma holds_IS_NULL {A} (a : option A) : holds (IS_NULL a) = true <-> a = None.
Proof. destruct a; simpl; intuition congruence. Qed.

Lemma holds_IS_NOT_NULL {A} (a : option A) :
  holds (IS_NOT_NULL a) = true <-> a <> None.
Proof. destruct a; simpl; intuition congruence. Qed.

Lemma holds_no_filter c : holds (Some true AND c) = holds c.
Proof. destruct c as [[] |]; reflexivity. Qed.

Lemma elem_of_List_filter {R} (f : R -> bool) (l : list R) (x : R) :
  x ∈ List.filter f l <-> x ∈ l /\ f x = true.
Proof. rewrite !list_elem_of_In. apply filter_In. Qed.

Lemma elem_of_left_outer_join {R} (table : list R) (key : R -> string)
    (ref : option string) (o : option R) :
  o ∈ left_outer_join table (fun r => sql_eq ref (Some (key r)))
  <-> link table key ref o.
Proof.
  unfold left_outer_join, link.
  destruct (List.filter _ table) as [| r rs] eqn:Hf.
  - rewrite list_elem_of_singleton. split.
    + intros -> r Hr Href.
      assert (r ∈ List.filter (fun r => holds (sql_eq ref (Some (key r)))) table) as Hin
        by (apply elem_of_List_filter; split; [exact Hr | now apply holds_eq]).
      rewrite Hf in Hin. now apply elem_of_nil in Hin.
    + destruct o as [r |]; [| reflexivity].
      intros [Hr Href].
      assert (r ∈ List.filter (fun r => holds (sql_eq ref (Some (key r)))) table) as Hin
        by (apply elem_of_List_filter; split; [exact Hr | now apply holds_eq]).
      rewrite Hf in Hin. now apply elem_of_nil in Hin.
  - rewrite <- Hf. rewrite list_elem_of_fmap. split.
    + intros (x & -> & Hx). apply elem_of_List_filter in Hx as [Hx Hon].
      split; [exact Hx | now apply holds_eq in Hon].
    + destruct o as [x |].
      * intros [Hx Href]. exists x. split; [reflexivity |].
        apply elem_of_List_filter. split; [exact Hx | now apply holds_eq].
      * intros Hnone. exfalso.
        assert (r ∈ List.filter (fun r => holds (sql_eq ref (Some (key r)))) table) as Hin
          by (rewrite Hf; apply list_elem_of_here).
        apply elem_of_List_filter in Hin as [Hr Hon].
        apply holds_eq in Hon. exact (Hnone r Hr Hon).
Qed.

Lemma elem_of_FROM_TASK_joins db j :
  j ∈ FROM_TASK_joins db <-> joined_in db j.
Proof.
  unfold FROM_TASK_joins, joined_in.
  repeat setoid_rewrite list_elem_of_bind.
  setoid_rewrite list_elem_of_singleton.
  repeat setoid_rewrite elem_of_left_outer_join.
  split.
  - intros (task & (project & (area & (heading & (headproj & (tags & (tag & -> & Htag)
            & Htags) & Hheadproj) & Hheading) & Harea) & Hproject) & Htask).
    simpl. tauto.
  - intros (Htask & Hproject & Harea & Hheading & Hheadproj & Htags & Htag).
    destruct j as [task project area heading headproj tags tag]. simpl in *.
    exists task. split; [| exact Htask].
    exists project. split; [| exact Hproject].
    exists area. split; [| exact Harea].
    exists heading. split; [| exact Hheading].
    exists headproj. split; [| exact Hheadproj].
    exists tags. split; [| exact Htags].
    exists tag. split; [reflexivity | exact Htag].
Qed.

(** *** GROUP BY, DISTINCT and ORDER BY *)

Lemma elem_of_GROUP_BY {R K} `{EqDecision K} (key : R -> K) seen rows x :
  x ∈ GROUP_BY key seen rows -> x ∈ rows.
Proof.
  revert seen. induction rows as [| r rows IH]; intros seen; simpl; [easy |].
  case_bool_decide.
  - intros Hx. right. eauto.
  - intros [-> | Hx]%elem_of_cons; [left | right; eauto].
Qed.

Lemma GROUP_BY_complete {R K} `{EqDecision K} (key : R -> K) seen rows x :
  x ∈ rows -> key x ∉ seen ->
  exists y, y ∈ GROUP_BY key seen rows /\ key y = key x.
Proof.
  revert seen. induction rows as [| r rows IH]; intros seen Hx Hseen;
    [now apply elem_of_nil in Hx |].
  simpl. apply elem_of_cons in Hx as [-> | Hx].
  - rewrite bool_decide_eq_false_2 by exact Hseen.
    exists r. split; [left | reflexivity].
  - case_bool_decide as Hr; [now apply IH |].
    destruct (decide (key x = key r)) as [Heq | Hne].
    + exists r. split; [left | now symmetry].
    + destruct (IH (key r :: seen) Hx) as (y & Hy & Hkey).
      * intros [? | ?]%elem_of_cons; tauto.
      * exists y. split; [now right | exact Hkey].
Qed.

Lemma GROUP_BY_NoDup {R K} `{EqDecision K} (key : R -> K) seen rows :
  NoDup (key <$> GROUP_BY key seen rows) /\
  forall x, x ∈ GROUP_BY key seen rows -> key x ∉ seen.
Proof.
  revert seen. induction rows as [| r rows IH]; intros seen; simpl.
  - split; [constructor | intros x Hx; now apply elem_of_nil in Hx].
  - case_bool_decide as Hr; [apply IH |].
    destruct (IH (key r :: seen)) as [Hnodup Hfresh].
    split.
    + csimpl. constructor; [| exact Hnodup].
      intros (y & Hkey & Hy)%list_elem_of_fmap.
      apply Hfresh in Hy. apply Hy. rewrite <- Hkey. left.
    + intros x [-> | Hx]%elem_of_cons; [exact Hr |].
      apply Hfresh in Hx. intros Hseen. apply Hx. now right.
Qed.

Lemma elem_of_DISTINCT {R} `{EqDecision R} (rows : list R) (x : R) :
  x ∈ DISTINCT rows <-> x ∈ rows.
Proof.
  unfold DISTINCT. split; [apply elem_of_GROUP_BY |].
  intros Hx.
  destruct (GROUP_BY_complete (fun r => r) [] rows x Hx (not_elem_of_nil x))
    as (y & Hy & ->).
  exact Hy.
Qed.

Lemma NoDup_DISTINCT {R} `{EqDecision R} (rows : list R) : NoDup (DISTINCT rows).
Proof.
  unfold DISTINCT.
  destruct (GROUP_BY_NoDup (fun r : R => r) [] rows) as [Hnodup _].
  now rewrite list_fmap_id in Hnodup.
Qed.

Section Sort.

Context {R : Type} (le : R -> R -> Prop) `{forall a b, Decision (le a b)}.

Lemma insert_sorted_Permutation x rows : insert_sorted le x rows ≡ₚ x :: rows.
Proof.
  induction rows as [| y rows IH]; simpl; [reflexivity |].
  case_decide; [reflexivity |].
  rewrite IH. apply Permutation_swap.
Qed.

Lemma sort_stable_Permutation rows : sort_stable le rows ≡ₚ rows.
Proof.
  induction rows as [| x rows IH]; simpl; [reflexivity |].
  now rewrite insert_sorted_Permutation, IH.
Qed.

Context `{!Transitive le, !Total le}.

Lemma insert_sorted_StronglySorted x rows :
  StronglySorted le rows -> StronglySorted le (insert_sorted le x rows).
Proof.
  induction 1 as [| y rows Hrows IH Hy]; simpl.
  - repeat constructor.
  - case_decide as Hxy.
    + constructor; [now constructor |].
      constructor; [exact Hxy |].
      eapply Forall_impl; [exact Hy |]. intros z Hyz. now transitivity y.
    + constructor; [exact IH |].
      rewrite insert_sorted_Permutation. constructor; [| exact Hy].
      destruct (total le x y); [contradiction | assumption].
Qed.

Lemma sort_stable_StronglySorted rows : StronglySorted le (sort_stable le rows).
Proof.
  induction rows as [| x rows IH]; simpl; [constructor |].
  now apply insert_sorted_StronglySorted.
Qed.

End Sort.

Lemma StronglySorted_lookup_le {A} (R : relation A) `{!Reflexive R}
    (l : list A) (i k : nat) (p q : A) :
  StronglySorted R l -> (i <= k)%nat ->
  l !! i = Some p -> l !! k = Some q -> R p q.
Proof.
  intros Hsorted. revert i k.
  induction Hsorted as [| x l Hl IH Hx]; intros i k Hik Hp Hq; [easy |].
  destruct i as [| i], k as [| k]; simpl in *; try lia.
  - now simplify_eq.
  - simplify_eq. rewrite Forall_forall in Hx. apply Hx.
    eapply list_elem_of_lookup_2. eassumption.
  - apply (IH i k); [lia | assumption | assumption].
Qed.

Lemma elem_of_ORDER_BY {R} (terms : list (order_term R)) (rows : list R) (x : R) :
  x ∈ ORDER_BY terms rows <-> x ∈ rows.
Proof. unfold ORDER_BY. now rewrite sort_stable_Permutation. Qed.

Section Rows.

Variables (self : Things3.t) (world : World) (path : string) (db : Snapshot).
Hypothesis at_path : Things3.database self = PStr path.
Hypothesis readable : world path = Return db.
Hypothesis plain : truthy (Things3.anonymize self) = false.

Lemma get_rows_plain sql g :
  Things3.get_rows self world sql g = (Return (rows_of self db sql), g).
Proof.
  unfold Things3.get_rows.
  erewrite execute_query_plain by first [eassumption | reflexivity]. reflexivity.
Qed.

Lemma elem_of_rows_of sql row :
  row ∈ rows_of self db sql <->
  exists j, j ∈ Things3.selected self sql db /\
            row = dict_factory Things3.columns (Things3.select_columns db j).
Proof.
  unfold rows_of. rewrite list_elem_of_fmap.
  setoid_rewrite elem_of_DISTINCT.
  setoid_rewrite list_elem_of_fmap.
  setoid_rewrite elem_of_ORDER_BY.
  split.
  - intros (cols & -> & j & -> & Hj). eauto.
  - intros (j & Hj & ->). eauto.
Qed.


(** With or without GROUP BY, a selected row is a row of the join. *)
Lemma selected_joined sql j :
  j ∈ Things3.selected self sql db -> joined_in db j.
Proof.
  unfold Things3.selected.
  destruct (GROUP_BY_uuid_HAVING sql) as [having |].
  - intros [Hj _]%elem_of_List_filter. apply elem_of_GROUP_BY in Hj.
    apply elem_of_List_filter in Hj as [Hj _].
    now apply elem_of_FROM_TASK_joins.
  - intros [Hj _]%elem_of_List_filter. now apply elem_of_FROM_TASK_joins.
Qed.

End Rows.

(** ** Scrambling *)

Lemma swap_length {A} (x : list A) i j : length (swap x i j) = length x.
Proof.
  unfold swap. destruct (x !! i), (x !! j); try reflexivity.
  now rewrite !length_insert.
Qed.

(** Exchanging two positions rearranges the list. *)
Lemma swap_Permutation {A} (x : list A) i j : swap x i j ≡ₚ x.
Proof.
  unfold swap.
  destruct (x !! i) as [a |] eqn:Hi; [| reflexivity].
  destruct (x !! j) as [b |] eqn:Hj; [| reflexivity].
  assert (i < length x)%nat as Hilt by (eapply lookup_lt_Some; eassumption).
  assert (j < length x)%nat as Hjlt by (eapply lookup_lt_Some; eassumption).
  apply Permutation_inj. split; [now rewrite !length_insert |].
  exists (fun k => if decide (k = j) then i else if decide (k = i) then j else k).
  split.
  - intros k1 k2. repeat case_decide; intros; subst; congruence.
  - intros k. repeat case_decide; subst.
    + rewrite list_lookup_insert_eq by (now rewrite length_insert). now rewrite Hi.
    + rewrite list_lookup_insert_ne by congruence.
      rewrite list_lookup_insert_eq by exact Hilt. now rewrite Hj.
    + now rewrite !list_lookup_insert_ne by congruence.
Qed.

Lemma randbelow_returns n g : exists j g', randbelow n g = (Return j, g').
Proof. destruct g as [| r g]; simpl; eauto. Qed.

(** [shuffle] always returns, and what it returns is a rearrangement of
    its argument, whatever the random generator answers. *)
Lemma shuffle_from_Permutation {A} (i : nat) (x : list A) (g : rng) :
  exists y g', shuffle_from i x g = (Return y, g') /\ y ≡ₚ x.
Proof.
  revert x g. induction i as [| i IH]; intros x g; simpl.
  - exists x, g. split; reflexivity.
  - destruct (randbelow_returns (S (S i)) g) as (j & g1 & Hj).
    destruct (IH (swap x (S i) j) g1) as (y & g' & Hy & Hperm).
    exists y, g'. split.
    + erewrite bind_Return by exact Hj. exact Hy.
    + rewrite Hperm. apply swap_Permutation.
Qed.

Lemma shuffle_Permutation {A} (x : list A) (g : rng) :
  exists y g', shuffle x g = (Return y, g') /\ y ≡ₚ x.
Proof. apply shuffle_from_Permutation. Qed.

Lemma length_list_ascii_of_string s :
  length (list_ascii_of_string s) = String.length s.
Proof. induction s as [| c s IH]; simpl; congruence. Qed.

(** [anonymize_string] on a text: same characters with the same
    multiplicities, hence the same length; [None] stays [None]. *)
Lemma anonymize_string_Permutation (s : string) (g : rng) :
  exists s' g',
    anonymize_string (TEXT s) g = (Return (TEXT s'), g') /\
    list_ascii_of_string s' ≡ₚ list_ascii_of_string s /\
    String.length s' = String.length s.
Proof.
  destruct (shuffle_Permutation (list_ascii_of_string s) g) as (y & g' & Hy & Hperm).
  exists (string_of_list_ascii y), g'.
  assert (list_ascii_of_string (string_of_list_ascii y) ≡ₚ list_ascii_of_string s)
    as Hperm' by now rewrite list_ascii_of_string_of_list_ascii.
  split; [| split; [exact Hperm' |]].
  - simpl. now erewrite bind_Return by exact Hy.
  - rewrite <- !length_list_ascii_of_string. now apply Permutation_length.
Qed.

Lemma anonymize_string_None g : anonymize_string NULL g = (Return NULL, g).
Proof. reflexivity. Qed.

(** Scrambling is not idempotent: a second pass need not give the first
    result again. *)
Example anonymize_string_twice :
  anonymize_string (TEXT "ab") [0%nat] = (Return (TEXT "ba"), []) /\
  anonymize_string (TEXT "ba") [0%nat] = (Return (TEXT "ab"), []).
Proof. split; reflexivity. Qed.

Lemma anonymize_string_scrambled (v : option string) (g : rng) :
  exists v' g',
    anonymize_string (text_value v) g = (Return v', g') /\
    scrambled (text_value v) v'.
Proof.
  destruct v as [s |]; simpl text_value.
  - destruct (anonymize_string_Permutation s g) as (s' & g' & Hs & Hperm & _).
    exists (TEXT s'), g'. split; [exact Hs | exact Hperm].
  - exists NULL, g. split; reflexivity.
Qed.

Lemma anonymize_task_scrambles db j g :
  exists row' g',
    Things3.anonymize_task
      (dict_factory Things3.columns (Things3.select_columns db j)) g
      = (Return row', g') /\
    scrambled_row (dict_factory Things3.columns (Things3.select_columns db j)) row'.
Proof.
  destruct (anonymize_string_scrambled (TMTask.title (TASK j)) g)
    as (title' & g1 & Htitle & Hst).
  destruct (anonymize_string_scrambled (Things3.context j) g1)
    as (context' & g2 & Hcontext & Hsc).
  eexists _, g2. split.
  - unfold Things3.anonymize_task.
    erewrite bind_Return by reflexivity.
    erewrite bind_Return by exact Htitle.
    erewrite bind_Return by reflexivity.
    erewrite bind_Return by exact Hcontext.
    reflexivity.
  - do 6 eexists. split; [reflexivity |]. split; [reflexivity |].
    split; assumption.
Qed.

Lemma for_each_Forall2 {A B} (body : A -> M B) (R : A -> B -> Prop) (l : list A) :
  (forall x, x ∈ l -> forall g, exists y g', body x g = (Return y, g') /\ R x y) ->
  forall g, exists ys g', for_each body l g = (Return ys, g') /\ Forall2 R l ys.
Proof.
  induction l as [| x l IH]; intros Hbody g; simpl.
  - exists [], g. split; [reflexivity | constructor].
  - destruct (Hbody x (list_elem_of_here x l) g) as (y & g1 & Hy & HR).
    destruct (IH (fun x' Hx' => Hbody x' (list_elem_of_further _ _ _ Hx')) g1)
      as (ys & g' & Hys & HRs).
    exists (y :: ys), g'. split; [| now constructor].
    erewrite bind_Return by exact Hy.
    erewrite bind_Return by exact Hys. reflexivity.
Qed.

(** With anonymizing on, every task view still returns, and each of its
    records has title and context scrambled as the last step. *)
Lemma get_rows_anonymized self world path db sql g :
  Things3.database self = PStr path ->
  world path = Return db ->
  truthy (Things3.anonymize self) = true ->
  exists rows' g',
    Things3.get_rows self world sql g = (Return rows', g') /\
    Forall2 scrambled_row (rows_of self db sql) rows'.
Proof.
  intros Hpath Hdb Hanon.
  destruct (for_each_Forall2 Things3.anonymize_task scrambled_row
              (rows_of self db sql)) with (g := g) as (rows' & g' & Hrows & HR).
  { intros row (j & _ & ->)%elem_of_rows_of g0. apply anonymize_task_scrambles. }
  exists rows', g'. split; [| exact HR].
  unfold Things3.get_rows, Things3.execute_query, try_except_OperationalError,
    Things3.connect_execute_fetchall, Things3.anonymize_tasks.
  rewrite Hpath, Hdb, Hanon.
  erewrite bind_Return by reflexivity.
  erewrite bind_Return by exact Hrows. reflexivity.
Qed.

(** What a task view hands out for the record [row] it read: the record
    itself, or its scrambled form when anonymizing is on. *)
Lemma get_rows_returns self world path db sql g :
  Things3.database self = PStr path ->
  world path = Return db ->
  exists rows' g',
    Things3.get_rows self world sql g = (Return rows', g') /\
    Forall2 (shown self) (rows_of self db sql) rows'.
Proof.
  intros Hpath Hdb. unfold shown.
  destruct (truthy (Things3.anonymize self)) eqn:Hanon.
  - eapply get_rows_anonymized; eassumption.
  - exists (rows_of self db sql), g. split.
    + eapply get_rows_plain; eassumption.
    + apply Forall_Forall2_diag, Forall_forall. reflexivity.
Qed.

Lemma Forall2_elem_of_r {A B} (P : A -> B -> Prop) l k y :
  Forall2 P l k -> y ∈ k -> exists x, x ∈ l /\ P x y.
Proof.
  intros HP (i & Hi)%list_elem_of_lookup_1.
  destruct (Forall2_lookup_r _ _ _ _ _ HP Hi) as (x & Hx & Hxy).
  exists x. split; [eapply list_elem_of_lookup_2; eassumption | exact Hxy].
Qed.

Lemma Forall2_elem_of_l {A B} (P : A -> B -> Prop) l k x :
  Forall2 P l k -> x ∈ l -> exists y, y ∈ k /\ P x y.
Proof.
  intros HP (i & Hi)%list_elem_of_lookup_1.
  destruct (Forall2_lookup_l _ _ _ _ _ HP Hi) as (y & Hy & Hxy).
  exists y. split; [eapply list_elem_of_lookup_2; eassumption | exact Hxy].
Qed.

(** Scrambling leaves the uuid and the context id of a record alone and
    scrambles its context. *)
Lemma shown_columns self db j row' g :
  shown self (dict_factory Things3.columns (Things3.select_columns db j)) row' ->
  exists title_shown,
    dict_get row' "uuid" g = (Return (TEXT (TMTask.uuid (TASK j))), g) /\
    dict_get row' "context" g = (Return title_shown, g) /\
    dict_get row' "context_uuid" g
      = (Return (text_value (Things3.context_uuid j)), g) /\
    (if truthy (Things3.anonymize self)
     then scrambled (text_value (Things3.context j)) title_shown
     else title_shown = text_value (Things3.context j)).
Proof.
  unfold shown. destruct (truthy (Things3.anonymize self)).
  - intros (uuid & title & context & rest & title' & context' & Hrow & -> & _ & Hc).
    injection Hrow as <- <- <- <-.
    exists context'. repeat split; try reflexivity. exact Hc.
  - intros ->. exists (text_value (Things3.context j)). repeat split.
Qed.

(** ** Context resolution (C2) *)






(** ** The anytime view and the scope filter (C5) *)

Lemma holds_filter_condition f j :
  holds (Things3.filter_condition f j) = true <-> in_scope f j.
Proof.
  destruct f as [| uuid | uuid]; simpl.
  - tauto.
  - apply holds_eq.
  - rewrite holds_or, !holds_eq.
    destruct (HEADING j) as [h |]; simpl.
    + split; [intros [? | ?]; eauto | intros [? | (h0 & [= <-] & ?)]; tauto].
    + split; [intros [? | [=]]; tauto | intros [? | (h & [=] & _)]; tauto].
Qed.








(** ** Daily statistics (C3) *)

Lemma day_of_window now x :
  day_of (now - Z.of_nat 365 * 86400 + x * 86400) = day_of now - 365 + x.
Proof.
  unfold day_of.
  replace (now - Z.of_nat 365 * 86400 + x * 86400)
    with (now + (x - 365) * 86400) by lia.
  rewrite Z.div_add by lia. lia.
Qed.

Lemma List_filter_fmap {A B} (f : A -> B) (p : B -> bool) (l : list A) :
  List.filter p (f <$> l) = f <$> List.filter (fun x => p (f x)) l.
Proof.
  induction l as [| x l IH]; csimpl; [reflexivity |].
  destruct (p (f x)); csimpl; now rewrite IH.
Qed.

Lemma List_filter_filter {A} (p q : A -> bool) (l : list A) :
  List.filter p (List.filter q l) = List.filter (fun x => p x && q x) l.
Proof.
  induction l as [| x l IH]; simpl; [reflexivity |].
  destruct (q x); simpl; rewrite ?andb_true_r, ?andb_false_r;
    [destruct (p x) |]; now rewrite IH.
Qed.

Lemma if_bool_decide_iff_local {B} (P Q : Prop) `{Decision P, Decision Q}
    (a b : B) :
  (P <-> Q) ->
  (if bool_decide P then a else b) = (if bool_decide Q then a else b).
Proof. intros HPQ. repeat case_bool_decide; tauto. Qed.

Lemma List_filter_NoDup_eq {A} `{EqDecision A} (x : A) (l : list A) :
  NoDup l ->
  List.filter (fun d => bool_decide (d = x)) l
  = if bool_decide (x ∈ l) then [x] else [].
Proof.
  induction 1 as [| y l Hy Hl IH]; cbn [List.filter].
  - now rewrite bool_decide_eq_false_2 by apply not_elem_of_nil.
  - rewrite IH. destruct (decide (y = x)) as [-> | Hyx].
    + rewrite (bool_decide_eq_true_2 (x = x)) by reflexivity.
      rewrite (bool_decide_eq_false_2 (x ∈ l)) by exact Hy.
      now rewrite bool_decide_eq_true_2 by apply list_elem_of_here.
    + rewrite (bool_decide_eq_false_2 (y = x)) by exact Hyx.
      apply if_bool_decide_iff_local. rewrite elem_of_cons. intuition congruence.
Qed.

Lemma bind_singleton_fmap {A B} (k : A -> list B) (f : A -> B) (l : list A) :
  (forall x, k x = [f x]) -> l ≫= k = f <$> l.
Proof.
  intros Hk. induction l as [| x l IH]; [reflexivity |].
  csimpl. now rewrite Hk, IH.
Qed.

Lemma holds_sql_eq_Some {A} `{EqDecision A} (x y : A) :
  holds (sql_eq (Some x) (Some y)) = bool_decide (x = y).
Proof. simpl. now destruct (bool_decide (x = y)). Qed.

(** The outer join with a grouped sub-select finds the day's count, or
    nothing when no row falls on that day. *)
Lemma left_outer_join_COUNT_GROUP_BY_DAY stamp cond db date :
  left_outer_join (Things3.COUNT_GROUP_BY_DAY stamp cond db)
    (fun sub => sql_eq (Some (snd sub)) (Some date))
  = [ if (on_day stamp date cond db =? 0)%Z then None
      else Some (on_day stamp date cond db, date) ].
Proof.
  unfold left_outer_join, Things3.COUNT_GROUP_BY_DAY, on_day.
  set (rows := List.filter _ (TABLE_TASK db)).
  set (n := COUNT (fun task => sql_eq (date_unixepoch (stamp task)) (Some date))
                  rows).
  assert (COUNT (fun task => sql_eq (date_unixepoch (stamp task)) (Some date)
                             AND cond (Some task))
                (TABLE_TASK db) = n) as ->.
  { unfold n, COUNT, rows. rewrite List_filter_filter. do 2 f_equal.
    apply filter_ext. intros task.
    destruct (date_unixepoch (stamp task)) as [d |],
             (cond (Some task)) as [[] |]; simpl;
      try case_bool_decide; reflexivity. }
  rewrite List_filter_fmap. simpl.
  erewrite (filter_ext _ (fun d => bool_decide (d = date)))
    by (intros d; apply holds_sql_eq_Some).
  rewrite List_filter_NoDup_eq by apply NoDup_DISTINCT.
  case_bool_decide as Hin.
  - assert (n <> 0) as Hpos.
    { apply elem_of_DISTINCT, list_elem_of_omap in Hin as (task & Htask & Hday).
      unfold n, COUNT.
      assert (task ∈ List.filter
                (fun task => holds (sql_eq (date_unixepoch (stamp task)) (Some date)))
                rows) as Hf
        by (apply elem_of_List_filter; split; [exact Htask | now apply holds_eq]).
      destruct (List.filter _ rows); [now apply elem_of_nil in Hf | simpl; lia]. }
    apply Z.eqb_neq in Hpos. rewrite Hpos. reflexivity.
  - assert (n = 0) as Hzero.
    { unfold n, COUNT.
      destruct (List.filter _ rows) as [| task l] eqn:Hf; [reflexivity |].
      exfalso. apply Hin.
      assert (task ∈ List.filter
                (fun task => holds (sql_eq (date_unixepoch (stamp task)) (Some date)))
                rows) as Htask
        by (rewrite Hf; apply list_elem_of_here).
      apply elem_of_List_filter in Htask as [Htask Hday].
      apply elem_of_DISTINCT, list_elem_of_omap.
      exists task. split; [exact Htask | now apply holds_eq in Hday]. }
    rewrite Hzero. reflexivity.
Qed.

Lemma activity_join (n : Z) (date : string) :
  int_value (fst <$> (if (n =? 0)%Z then None else Some (n, date))) = activity n.
Proof. unfold activity. now destruct (n =? 0)%Z. Qed.

(** C3, as the code has it: with anonymizing off, the statistics are
    exactly 365 rows, one per calendar day, contiguous and in order, from
    the day 365 days before today to yesterday (today itself is not part of
    the window); each count is the number of rows stamped on that day, and
    a day without such rows carries NULL, not 0. *)
Theorem daystats_window
    (self : Things3.t) (world : World) (path : string) (db : Snapshot) (g : rng) :
  Things3.database self = PStr path ->
  world path = Return db ->
  truthy (Things3.anonymize self) = false ->
  exists rows,
    Things3.get_daystats self world g = (Return rows, g) /\
    length rows = 365%nat /\
    (forall i, (i < 365)%nat ->
       rows !! i = Some (daystats_row self db (Z.of_nat i))) /\
    (forall n, activity n = INTEGER 0 -> False) /\
    (forall n, activity n = NULL <-> n = 0).
Proof.
  intros Hpath Hdb Hplain.
  exists (daystats_row self db <$> Things3.timeseries 365).
  split; [| split; [| split; [| split]]].
  - unfold Things3.get_daystats.
    erewrite execute_query_plain by first [eassumption | reflexivity].
    do 2 f_equal. cbn [description fetchall].
    erewrite (bind_singleton_fmap _ (fun x => snd <$> daystats_row self db x)).
    + rewrite <- list_fmap_compose. apply list_fmap_ext. intros i x _. reflexivity.
    + intros x. cbv zeta.
      rewrite !left_outer_join_COUNT_GROUP_BY_DAY. csimpl.
      rewrite !activity_join, day_of_window. reflexivity.
  - unfold Things3.timeseries. now rewrite !length_fmap, length_seq.
  - intros i Hi. unfold Things3.timeseries.
    rewrite !list_lookup_fmap, lookup_seq_lt by exact Hi. reflexivity.
  - intros n. unfold activity. destruct (n =? 0)%Z eqn:Hn; [discriminate |].
    intros [= ->]. discriminate Hn.
  - intros n. unfold activity. destruct (Z.eqb_spec n 0); split; congruence.
Qed.

Lemma daystats_window_witness :
  exists rows,
    Things3.get_daystats Sample.things3 (Sample.world Sample.board) []
      = (Return rows, []) /\
    length rows = 365%nat /\
    (forall i, (i < 365)%nat ->
       rows !! i = Some (daystats_row Sample.things3 Sample.board (Z.of_nat i))) /\
    (forall n, activity n = INTEGER 0 -> False) /\
    (forall n, activity n = NULL <-> n = 0).
Proof.
  apply (daystats_window Sample.things3 (Sample.world Sample.board)
           Sample.path Sample.board [] eq_refl eq_refl eq_refl).
Defined.

(** C3 as stated fails: on the sample board, read on 2020-09-13, the last
    of the 365 rows is 2020-09-12, so today (the day all four sample rows
    were created) is not covered, and the counts of that idle last day are
    NULL, not 0. *)
Lemma daystats_ends_yesterday_with_NULL :
  date_text (day_of (now Sample.board)) = "2020-09-13" /\
  exists rows,
    Things3.get_daystats Sample.things3 (Sample.world Sample.board) []
      = (Return rows, []) /\
    length rows = 365%nat /\
    last rows = Some [ ("date", TEXT "2020-09-12"); ("created", NULL);
                       ("completed", NULL); ("cancelled", NULL);
                       ("trashed", NULL) ].
Proof.
  split; [reflexivity |].
  eexists. split; [vm_compute; reflexivity |].
  split; vm_compute; reflexivity.
Qed.

(** ** Largest projects (C8) *)

Lemma List_filter_stdpp {A} (f : A -> bool) (P : A -> Prop)
    `{forall x, Decision (P x)} (l : list A) :
  (forall x, f x = true <-> P x) -> List.filter f l = filter P l.
Proof.
  intros Hf. induction l as [| x l IH]; [reflexivity |].
  rewrite filter_cons. simpl. rewrite IH.
  destruct (decide (P x)) as [HP | HP].
  - apply Hf in HP. now rewrite HP.
  - destruct (f x) eqn:Hfx; [| reflexivity]. apply Hf in Hfx. tauto.
Qed.

(** The size of a project, said plainly: the rows of [TMTask], of any
    kind, that name it as their project and are open and not trashed. *)
Lemma size_counts_children db uuid :
  Things3.size db uuid =
  Z.of_nat (length (filter (fun child =>
                              TMTask.project child = Some uuid /\
                              TMTask.trashed child = Some 0 /\
                              TMTask.status child = Some 0)
                           (TABLE_TASK db))).
Proof.
  unfold Things3.size, COUNT. do 2 f_equal.
  apply List_filter_stdpp. intros child.
  unfold Things3.IS_NOT_TRASHED, Things3.IS_OPEN.
  rewrite !holds_and, !holds_eq. simpl. tauto.
Qed.

Section BySize.

Variable db : Snapshot.

Lemma order_le_by_size a b :
  order_le (by_size db) a b <->
  Things3.size db (TMTask.uuid b) <= Things3.size db (TMTask.uuid a).
Proof.
  unfold order_le, by_size. simpl.
  destruct (Z.compare_spec (Things3.size db (TMTask.uuid b))
                           (Things3.size db (TMTask.uuid a)));
    split; intros; try lia; congruence.
Qed.

#[local] Instance by_size_reflexive : Reflexive (order_le (by_size db)).
Proof. intros a. apply order_le_by_size. lia. Qed.

#[local] Instance by_size_transitive : Transitive (order_le (by_size db)).
Proof. intros a b c. rewrite !order_le_by_size. lia. Qed.

#[local] Instance by_size_total : Total (order_le (by_size db)).
Proof. intros a b. rewrite !order_le_by_size. lia. Qed.

Lemma ORDER_BY_size_sorted rows :
  StronglySorted (order_le (by_size db)) (ORDER_BY (by_size db) rows).
Proof. apply sort_stable_StronglySorted; apply _. Qed.

End BySize.

(** C8, as the code has it: with anonymizing off, the view lists each
    open, untrashed project once; the count beside it is the number of
    open, untrashed rows of [TMTask] whose project is that project, of any
    kind (a row of project kind filed under it counts too), and the rows
    come in descending order of that count. *)
Theorem largest_projects_counts
    (self : Things3.t) (world : World) (path : string) (db : Snapshot) (g : rng) :
  Things3.database self = PStr path ->
  world path = Return db ->
  truthy (Things3.anonymize self) = false ->
  exists projects,
    Things3.get_largest_projects self world g
      = (Return (largest_projects_row db <$> projects), g) /\
    (forall p, p ∈ projects ->
       p ∈ TABLE_TASK db /\ TMTask.trashed p = Some 0 /\
       TMTask.status p = Some 0 /\ TMTask.type p = Some 1) /\
    (forall p, p ∈ TABLE_TASK db -> TMTask.trashed p = Some 0 ->
       TMTask.status p = Some 0 -> TMTask.type p = Some 1 ->
       exists q, q ∈ projects /\ TMTask.uuid q = TMTask.uuid p) /\
    NoDup (TMTask.uuid <$> projects) /\
    (forall i k p q, (i <= k)%nat ->
       projects !! i = Some p -> projects !! k = Some q ->
       (length (children db (TMTask.uuid q))
        <= length (children db (TMTask.uuid p)))%nat).
Proof.
  intros Hpath Hdb Hplain.
  set (open_projects :=
         List.filter
           (fun task =>
              holds (Things3.IS_NOT_TRASHED (Some task)
                     AND Things3.IS_OPEN (Some task)
                     AND Things3.IS_PROJECT (Some task)))
           (TABLE_TASK db)).
  assert (forall p, p ∈ open_projects <->
            p ∈ TABLE_TASK db /\ TMTask.trashed p = Some 0 /\
            TMTask.status p = Some 0 /\ TMTask.type p = Some 1) as Hopen.
  { intros p. unfold open_projects. rewrite elem_of_List_filter.
    unfold Things3.IS_NOT_TRASHED, Things3.IS_OPEN, Things3.IS_PROJECT.
    rewrite !holds_and, !holds_eq. simpl. tauto. }
  exists (ORDER_BY (by_size db) (GROUP_BY TMTask.uuid [] open_projects)).
  split; [| split; [| split; [| split]]].
  - unfold Things3.get_largest_projects.
    erewrite execute_query_plain by first [eassumption | reflexivity].
    do 2 f_equal. cbn [description fetchall].
    rewrite <- list_fmap_compose. apply list_fmap_ext. intros i p _.
    unfold largest_projects_row, children.
    rewrite <- size_counts_children. reflexivity.
  - intros p Hp. apply elem_of_ORDER_BY, elem_of_GROUP_BY in Hp.
    now apply Hopen.
  - intros p Hp Htrashed Hstatus Htype.
    destruct (GROUP_BY_complete TMTask.uuid [] open_projects p) as (q & Hq & Hkey).
    + apply Hopen. tauto.
    + apply not_elem_of_nil.
    + exists q. split; [now apply elem_of_ORDER_BY | exact Hkey].
  - unfold ORDER_BY. rewrite sort_stable_Permutation.
    apply (GROUP_BY_NoDup TMTask.uuid [] open_projects).
  - intros i k p q Hik Hp Hq.
    pose proof (@StronglySorted_lookup_le _ _ (by_size_reflexive db) _ i k p q
                  (ORDER_BY_size_sorted db _) Hik Hp Hq) as Hle.
    apply order_le_by_size in Hle.
    rewrite !size_counts_children in Hle. fold (children db (TMTask.uuid q)) in Hle.
    fold (children db (TMTask.uuid p)) in Hle. lia.
Qed.

Lemma largest_projects_counts_witness :
  exists projects,
    Things3.get_largest_projects Sample.things3 (Sample.world Sample.board) []
      = (Return (largest_projects_row Sample.board <$> projects), []) /\
    (forall p, p ∈ projects ->
       p ∈ TABLE_TASK Sample.board /\ TMTask.trashed p = Some 0 /\
       TMTask.status p = Some 0 /\ TMTask.type p = Some 1) /\
    (forall p, p ∈ TABLE_TASK Sample.board -> TMTask.trashed p = Some 0 ->
       TMTask.status p = Some 0 -> TMTask.type p = Some 1 ->
       exists q, q ∈ projects /\ TMTask.uuid q = TMTask.uuid p) /\
    NoDup (TMTask.uuid <$> projects) /\
    (forall i k p q, (i <= k)%nat ->
       projects !! i = Some p -> projects !! k = Some q ->
       (length (children Sample.board (TMTask.uuid q))
        <= length (children Sample.board (TMTask.uuid p)))%nat).
Proof.
  apply (largest_projects_counts Sample.things3 (Sample.world Sample.board)
           Sample.path Sample.board [] eq_refl eq_refl eq_refl).
Defined.

(** C8 as stated fails: P has no open child of non-project kind, yet the
    view reports 1 for it, because the row Q of project kind under it is
    counted. *)
Lemma nested_project_is_counted :
  filter (fun child =>
            TMTask.project child = Some "P" /\ TMTask.trashed child = Some 0 /\
            TMTask.status child = Some 0 /\ TMTask.type child <> Some 1)
         (TABLE_TASK Sample.nested_project) = [] /\
  Things3.get_largest_projects Sample.things3 (Sample.world Sample.nested_project) [] =
    (Return
       [ [ ("uuid", TEXT "P"); ("title", TEXT "Project");
           ("created", INTEGER 1599955200); ("modified", INTEGER 1599955200);
           ("tasks", INTEGER 1) ];
         [ ("uuid", TEXT "Q"); ("title", TEXT "Sub-project");
           ("created", INTEGER 1599955200); ("modified", INTEGER 1599955200);
           ("tasks", INTEGER 0) ] ], []).
Proof. split; vm_compute; reflexivity. Qed.

(** ** The anonymizer on every view (C9) *)

(** The statistics never survive anonymizing: their first row has no
    title to scramble. *)
Lemma get_daystats_anonymized self world path db g :
  Things3.database self = PStr path ->
  world path = Return db ->
  truthy (Things3.anonymize self) = true ->
  Things3.get_daystats self world g = (Raise (KeyError "title"), g).
Proof.
  intros Hpath Hdb Hanon.
  unfold Things3.get_daystats, Things3.execute_query, try_except_OperationalError,
    Things3.connect_execute_fetchall, Things3.anonymize_tasks.
  rewrite Hpath, Hdb, Hanon.
  erewrite bind_Return by reflexivity.
  cbn [description fetchall].
  erewrite (bind_singleton_fmap _ (fun x => snd <$> daystats_row self db x)).
  - reflexivity.
  - intros x. cbv zeta.
    rewrite !left_outer_join_COUNT_GROUP_BY_DAY. csimpl.
    rewrite !activity_join, day_of_window. reflexivity.
Qed.

(** C9, where the code falls short of the claim: with anonymizing on, the
    views whose records lack a title or a context column (areas, largest
    projects, daily statistics, minutes today) raise [KeyError] from
    [anonymize_tasks] instead of returning scrambled records, while
    [get_projects], which selects [NULL as context], returns them. *)
Theorem anonymize_raises_KeyError :
  truthy (Things3.anonymize Sample.anonymous) = true /\
  Things3.get_areas Sample.anonymous (Sample.world Sample.board) []
    = (Raise (KeyError "context"), []) /\
  Things3.get_largest_projects Sample.anonymous (Sample.world Sample.board) []
    = (Raise (KeyError "context"), []) /\
  Things3.get_daystats Sample.anonymous (Sample.world Sample.board) []
    = (Raise (KeyError "title"), []) /\
  Things3.get_minutes_today Sample.anonymous (Sample.world Sample.board) []
    = (Raise (KeyError "title"), []) /\
  Things3.get_projects Sample.anonymous (Sample.world Sample.board) [2%nat; 0%nat]
    = (Return [ [("uuid", TEXT "P"); ("title", TEXT "rtjecPo"); ("context", NULL)] ],
       []).
Proof. repeat split; vm_compute; reflexivity. Qed.

(** * Further properties of the code *)

(** ** What a task view lists *)

Lemma bind_Return_inv {A B} (m : M A) (k : A -> M B) g b g' :
  (x ← m; k x) g = (Return b, g') ->
  exists a g1, m g = (Return a, g1) /\ k a g1 = (Return b, g').
Proof.
  cbv [mbind M_bind bind]. destruct (m g) as [[a | e] g1]; [eauto | discriminate].
Qed.

Lemma holds_eq_gen {A} `{EqDecision A} (a b : option A) :
  holds (sql_eq a b) = true <-> exists x, a = Some x /\ b = Some x.
Proof.
  destruct a as [x |], b as [y |]; simpl;
    try (split; [discriminate | intros (? & ? & ?); discriminate]).
  case_bool_decide; simpl; split.
  - intros _. exists x. now subst.
  - reflexivity.
  - discriminate.
  - intros (z & [= ->] & [= ->]). contradiction.
Qed.

Lemma holds_le (a : option Z) (x : Z) :
  holds (sql_le a (Some x)) = true <-> exists y, a = Some y /\ y <= x.
Proof.
  destruct a as [y |]; simpl.
  - destruct (Z.leb_spec y x); split.
    + intros _. eauto.
    + reflexivity.
    + discriminate.
    + intros (z & [= ->] & Hz). lia.
  - split; [discriminate | intros (? & [=] & _)].
Qed.

Lemma col_Some {R A} (f : R -> option A) (r : R) : col f (Some r) = f r.
Proof. reflexivity. Qed.

(** A selected row passed the scope filter, the WHERE and the HAVING. *)
Lemma selected_conditions self sql db j :
  j ∈ Things3.selected self sql db ->
  joined_in db j /\
  in_scope (Things3.filter self) j /\
  holds (WHERE sql db j) = true /\
  forall having, GROUP_BY_uuid_HAVING sql = Some having ->
                 holds (having db j) = true.
Proof.
  intros Hj. split; [eapply selected_joined; eassumption |].
  rewrite <- holds_filter_condition.
  unfold Things3.selected in Hj.
  destruct (GROUP_BY_uuid_HAVING sql) as [having |].
  - apply elem_of_List_filter in Hj as [Hj Hhaving].
    apply elem_of_GROUP_BY, elem_of_List_filter in Hj as [_ Hj].
    apply holds_and in Hj as [Hscope Hwhere].
    repeat split; try assumption. now intros ? [= <-].
  - apply elem_of_List_filter in Hj as [_ Hj].
    apply holds_and in Hj as [Hscope Hwhere].
    repeat split; try assumption. discriminate.
Qed.

(** The kind column is not touched by scrambling. *)
Lemma shown_type self db j row' g :
  shown self (dict_factory Things3.columns (Things3.select_columns db j)) row' ->
  dict_get row' "type" g = (Return (text_value (Things3.type_name j)), g).
Proof.
  unfold shown. destruct (truthy (Things3.anonymize self)).
  - intros (uuid & title & context & rest & title' & context' & Hrow & -> & _).
    injection Hrow as <- <- <- <-. reflexivity.
  - intros ->. reflexivity.
Qed.

(** Every record a task view returns comes from a selected row of the
    join, whose uuid and kind it shows; and every selected row is shown. *)
Lemma get_rows_selected self world path db sql g rows g' :
  Things3.database self = PStr path ->
  world path = Return db ->
  Things3.get_rows self world sql g = (Return rows, g') ->
  (forall row, row ∈ rows ->
     exists j, j ∈ Things3.selected self sql db /\
               shows row (TASK j) /\
               dict_get row "type" [] = (Return (text_value (Things3.type_name j)), [])) /\
  (forall j, j ∈ Things3.selected self sql db ->
     exists row, row ∈ rows /\ shows row (TASK j)).
Proof.
  intros Hpath Hdb Hrun.
  destruct (get_rows_returns self world path db sql g Hpath Hdb)
    as (rows0 & g0 & Hrun0 & Hshown).
  rewrite Hrun in Hrun0. injection Hrun0 as <- <-.
  split.
  - intros row' Hrow'.
    destruct (Forall2_elem_of_r _ _ _ _ Hshown Hrow') as (row & Hrow & Hrr').
    apply elem_of_rows_of in Hrow as (j & Hj & ->).
    destruct (shown_columns self db j row' [] Hrr') as (_ & Huuid & _).
    exists j. split; [exact Hj |]. split; [exact Huuid |].
    eapply shown_type; eassumption.
  - intros j Hj.
    assert (dict_factory Things3.columns (Things3.select_columns db j)
            ∈ rows_of self db sql) as Hrow
      by (apply elem_of_rows_of; eauto).
    destruct (Forall2_elem_of_l _ _ _ _ Hshown Hrow) as (row' & Hrow' & Hrr').
    destruct (shown_columns self db j row' [] Hrr') as (_ & Huuid & _).
    exists row'. split; assumption.
Qed.

(** Turns [holds c = true] into the facts it stands for. *)
Ltac sql_props H :=
  cbn [WHERE] in H; cbv zeta in H;
  unfold Things3.containers_NOT_TRASHED, Things3.type_is, Things3.IS_INBOX,
    Things3.IS_ANYTIME, Things3.IS_SOMEDAY, Things3.IS_SCHEDULED,
    Things3.IS_NOT_SCHEDULED, Things3.IS_DUE, Things3.IS_RECURRING,
    Things3.IS_NOT_RECURRING, Things3.IS_PROJECT, Things3.IS_TRASHED,
    Things3.IS_NOT_TRASHED, Things3.IS_OPEN, Things3.IS_CANCELLED,
    Things3.IS_DONE, Things3.RECURRING_IS_NOT_PAUSED,
    Things3.RECURRING_HAS_NEXT_STARTDATE in H;
  repeat first
    [ rewrite holds_and in H | rewrite holds_or in H | rewrite holds_eq in H
    | rewrite holds_IS_NULL in H | rewrite holds_IS_NOT_NULL in H
    | rewrite holds_le in H | rewrite holds_eq_gen in H
    | rewrite col_Some in H ].


(** One goal for each entry of [functions]. *)
Ltac functions_cases Hfunc :=
  apply elem_of_list_to_map_2 in Hfunc;
  repeat (apply elem_of_cons in Hfunc as [Hfunc | Hfunc];
          [injection Hfunc as -> -> |]);
  [.. | now apply elem_of_nil in Hfunc].

(** Closes a goal whose hypothesis puts a name into a list of other
    names. *)
Ltac not_listed H :=
  exfalso; clear -H;
  repeat (apply elem_of_cons in H as [H | H]; [discriminate H |]);
  now apply elem_of_nil in H.



(** ** Trashed rows *)




(** ** The kind of row a view lists *)








(** ** Status, scope and the columns of the board *)













(** ** Errors of the driver *)

Lemma execute_query_other_error self world path e sql g :
  Things3.database self = PStr path ->
  world path = Raise e ->
  (forall msg, e <> OperationalError msg) ->
  Things3.execute_query self world sql g = (Raise e, g).
Proof.
  intros Hpath Hdb He.
  cbv [Things3.execute_query try_except_OperationalError
       Things3.connect_execute_fetchall mbind M_bind bind raise].
  rewrite Hpath, Hdb.
  destruct e as [| | | | msg |]; try reflexivity. now destruct (He msg).
Qed.

(** X7.  Only [sqlite3.OperationalError] is turned into [sys.exit(2)]:
    any other exception the driver raises (a [DatabaseError] for a file
    that is not a database, say) leaves [execute_query], and with it
    every view of [functions], unchanged. *)
Theorem other_errors_reach_the_caller
    (self : Things3.t) (world : World) (path : string) (e : exn)
    (command : string) (func : view) (g : rng) :
  Things3.database self = PStr path ->
  world path = Raise e ->
  (forall msg, e <> OperationalError msg) ->
  Things3.functions !! command = Some func ->
  func self world g = (Raise e, g).
Proof.
  intros Hpath Hdb He Hfunc.
  functions_cases Hfunc;
    try (eapply execute_query_other_error; eassumption).
  unfold Things3.get_cleanup.
  erewrite bind_Raise; [reflexivity |].
  eapply execute_query_other_error; eassumption.
Qed.

Lemma other_errors_reach_the_caller_witness :
  Things3.get_cleanup Sample.things3 Sample.garbage []
  = (Raise (DatabaseError "file is not a database"), []).
Proof.
  apply (other_errors_reach_the_caller Sample.things3 Sample.garbage Sample.path
           (DatabaseError "file is not a database") "cleanup" Things3.get_cleanup []
           eq_refl eq_refl).
  - discriminate.
  - reflexivity.
Defined.


(** ** The scope filter outside the task views *)

(** X8.  The five views with a statement of their own never read the
    scope filter: whatever [api_filter] has set, "projects", "areas",
    "top-proj", "stats-day" and "stats-min-today" answer as without it. *)
Theorem direct_views_ignore_scope
    (self : Things3API.t) (f : filter_text) (world : World)
    (command : string) (func : view) (g : rng) :
  Things3.functions !! command = Some func ->
  command ∈ direct_views ->
  func (Things3API.things3 (Things3API.set_filter self f)) world g
  = func (Things3API.things3 self) world g.
Proof.
  intros Hfunc Hcommand.
  functions_cases Hfunc; try not_listed Hcommand; reflexivity.
Qed.

Lemma direct_views_ignore_scope_witness :
  Things3.get_minutes_today
    (Things3API.things3
       (Things3API.set_filter (Things3API.mk Sample.things3) (filter_area "H")))
    (Sample.world Sample.desk) []
  = Things3.get_minutes_today Sample.things3 (Sample.world Sample.desk) [].
Proof.
  apply (direct_views_ignore_scope (Things3API.mk Sample.things3) (filter_area "H")
           (Sample.world Sample.desk) "stats-min-today" Things3.get_minutes_today []
           eq_refl).
  unfold direct_views. repeat constructor.
Defined.


(** ** The anonymizer, view by view *)






Lemma anonymize_task_KeyError_context uuid title rest g :
  (forall g', dict_get rest "context" g' = (Raise (KeyError "context"), g')) ->
  exists g',
    Things3.anonymize_task (("uuid", uuid) :: ("title", text_value title) :: rest) g
    = (Raise (KeyError "context"), g').
Proof.
  intros Hrest.
  destruct (anonymize_string_scrambled title g) as (title' & g1 & Htitle & _).
  exists g1. unfold Things3.anonymize_task.
  erewrite bind_Return by reflexivity.
  erewrite bind_Return by exact Htitle.
  erewrite bind_Raise; [reflexivity |].
  simpl. apply Hrest.
Qed.

Lemma execute_query_anonymized_first self world path db sql g values rest e g' :
  Things3.database self = PStr path ->
  world path = Return db ->
  truthy (Things3.anonymize self) = true ->
  fetchall sql db = Return (values :: rest) ->
  Things3.anonymize_task (dict_factory (description sql) values) g = (Raise e, g') ->
  (forall msg, e <> OperationalError msg) ->
  Things3.execute_query self world sql g = (Raise e, g').
Proof.
  intros Hpath Hdb Hanon Hrows Hfirst He.
  unfold Things3.execute_query, try_except_OperationalError,
    Things3.connect_execute_fetchall, Things3.anonymize_tasks.
  rewrite Hpath, Hdb, Hrows, Hanon.
  erewrite bind_Return by reflexivity.
  erewrite bind_Raise by (csimpl; erewrite bind_Raise; [reflexivity | exact Hfirst]).
  destruct e as [| | | | msg |]; try reflexivity. now destruct (He msg).
Qed.

Lemma execute_query_no_rows self world path db sql g :
  Things3.database self = PStr path ->
  world path = Return db ->
  fetchall sql db = Return [] ->
  Things3.execute_query self world sql g = (Return [], g).
Proof.
  intros Hpath Hdb Hrows.
  unfold Things3.execute_query, try_except_OperationalError,
    Things3.connect_execute_fetchall, Things3.anonymize_tasks.
  rewrite Hpath, Hdb, Hrows.
  destruct (truthy (Things3.anonymize self)); reflexivity.
Qed.

(** An error of the driver while the statement runs ends in the exit
    as well. *)
Lemma execute_query_fetch_error self world path db sql msg g :
  Things3.database self = PStr path ->
  world path = Return db ->
  fetchall sql db = Raise (OperationalError msg) ->
  Things3.execute_query self world sql g = (Raise (SystemExit 2), g).
Proof.
  intros Hpath Hdb Hrows.
  cbv [Things3.execute_query try_except_OperationalError
       Things3.connect_execute_fetchall mbind M_bind bind raise].
  now rewrite Hpath, Hdb, Hrows.
Qed.

Lemma sort_stable_nil {R} (le : R -> R -> Prop) `{forall a b, Decision (le a b)}
    (rows : list R) :
  sort_stable le rows = [] <-> rows = [].
Proof.
  split; [| now intros ->].
  intros Hnil. apply Permutation_nil_r. rewrite <- Hnil.
  symmetry. apply sort_stable_Permutation.
Qed.

Lemma holds_open_project (task : TMTask.t) :
  holds (Things3.IS_NOT_TRASHED (Some task) AND Things3.IS_OPEN (Some task)
         AND Things3.IS_PROJECT (Some task)) = true
  <-> open_project task.
Proof.
  unfold open_project, Things3.IS_NOT_TRASHED, Things3.IS_OPEN, Things3.IS_PROJECT.
  rewrite !holds_and, !holds_eq, !col_Some. tauto.
Qed.

(** X10.  With the anonymizer on, a view whose records lack a title or a
    context never returns a record, on any store.  "stats-day" always
    raises [KeyError('title')].  "stats-min-today" raises it whenever its
    statement runs; when the sum of the minutes leaves the 64-bit range
    the statement fails first and the engine exits with status 2.
    "areas" raises [KeyError('context')] as soon as [TMArea] has a row,
    and "top-proj" as soon as [TMTask] has an open project that is not
    trashed; with nothing to list both return the empty list. *)
Theorem anonymizer_needs_title_and_context
    (self : Things3.t) (world : World) (path : string) (db : Snapshot) (g : rng) :
  Things3.database self = PStr path ->
  world path = Return db ->
  truthy (Things3.anonymize self) = true ->
  Things3.get_daystats self world g = (Raise (KeyError "title"), g) /\
  (forall total,
     Things3.add_int64 0 (Things3.planned_minutes self db) = Some total ->
     Things3.get_minutes_today self world g = (Raise (KeyError "title"), g)) /\
  (Things3.add_int64 0 (Things3.planned_minutes self db) = None ->
   Things3.get_minutes_today self world g = (Raise (SystemExit 2), g)) /\
  (TABLE_AREA db = [] -> Things3.get_areas self world g = (Return [], g)) /\
  (TABLE_AREA db <> [] ->
   exists g', Things3.get_areas self world g = (Raise (KeyError "context"), g')) /\
  ((forall task, task ∈ TABLE_TASK db -> ~ open_project task) ->
   Things3.get_largest_projects self world g = (Return [], g)) /\
  ((exists task, task ∈ TABLE_TASK db /\ open_project task) ->
   exists g',
     Things3.get_largest_projects self world g = (Raise (KeyError "context"), g')).
Proof.
  intros Hpath Hdb Hanon.
  split; [eapply get_daystats_anonymized; eassumption |].
  split.
  { intros total Htotal.
    eapply (execute_query_anonymized_first _ _ _ _ _ _
              [match Things3.planned_minutes self db with
               | [] => NULL
               | _ => INTEGER total
               end] []); try eassumption.
    - cbn [fetchall]. unfold Things3.SUM. rewrite Htotal.
      destruct (Things3.planned_minutes self db); reflexivity.
    - reflexivity.
    - discriminate. }
  split.
  { intros Hoverflow.
    eapply execute_query_fetch_error; try eassumption.
    cbn [fetchall]. unfold Things3.SUM. rewrite Hoverflow.
    destruct (Things3.planned_minutes self db); [discriminate | reflexivity]. }
  split.
  { intros Hnone. eapply execute_query_no_rows; try eassumption.
    cbn [fetchall]. now rewrite Hnone. }
  split.
  { intros Hsome. unfold Things3.get_areas.
    set (sql := {| description := _; fetchall := _ |}).
    destruct (fetchall sql db) as [[| values rest] | e] eqn:Hrows;
      [| | discriminate Hrows]; pose proof Hrows as Hfetch;
      unfold sql in Hrows; cbn [fetchall] in Hrows; injection Hrows as Hrows.
    - exfalso. apply Hsome.
      apply fmap_nil_inv in Hrows. now apply sort_stable_nil in Hrows.
    - assert (values ∈ values :: rest) as Hin by left.
      rewrite <- Hrows in Hin.
      apply list_elem_of_fmap in Hin as (area & -> & _).
      destruct (anonymize_task_KeyError_context (TEXT (TMArea.uuid area))
                  (TMArea.title area) [] g) as (g' & Hfirst); [reflexivity |].
      exists g'. eapply execute_query_anonymized_first; try eassumption.
      discriminate. }
  split.
  { intros Hnone. eapply execute_query_no_rows; try eassumption.
    cbn [fetchall].
    replace (List.filter _ (TABLE_TASK db)) with (@nil TMTask.t); [reflexivity |].
    symmetry. apply elem_of_nil_inv. intros task (Hin & Hopen)%elem_of_List_filter.
    apply (Hnone task Hin). now apply holds_open_project. }
  intros (task & Hin & Hopen). unfold Things3.get_largest_projects.
  set (sql := {| description := _; fetchall := _ |}).
  destruct (fetchall sql db) as [[| values rest] | e] eqn:Hrows;
    [| | discriminate Hrows]; pose proof Hrows as Hfetch;
    unfold sql in Hrows; cbn [fetchall] in Hrows; injection Hrows as Hrows.
  - exfalso.
    apply fmap_nil_inv in Hrows. apply sort_stable_nil in Hrows.
    destruct (GROUP_BY_complete TMTask.uuid []
                (List.filter
                   (fun task =>
                      holds (Things3.IS_NOT_TRASHED (Some task)
                             AND Things3.IS_OPEN (Some task)
                             AND Things3.IS_PROJECT (Some task)))
                   (TABLE_TASK db)) task) as (q & Hq & _).
    + apply elem_of_List_filter. split; [exact Hin |].
      now apply holds_open_project.
    + apply not_elem_of_nil.
    + rewrite Hrows in Hq. now apply elem_of_nil in Hq.
  - assert (values ∈ values :: rest) as Hin' by left.
    rewrite <- Hrows in Hin'.
    apply list_elem_of_fmap in Hin' as (p & -> & _).
    destruct (anonymize_task_KeyError_context (TEXT (TMTask.uuid p))
                (TMTask.title p)
                [ ("created", int_value (TMTask.creationDate p));
                  ("modified", int_value (TMTask.userModificationDate p));
                  ("tasks", INTEGER (Things3.size db (TMTask.uuid p))) ] g)
      as (g' & Hfirst); [reflexivity |].
    exists g'. eapply execute_query_anonymized_first; try eassumption.
    discriminate.
Qed.

Lemma anonymizer_needs_title_and_context_witness :
  Things3.get_daystats Sample.anonymous (Sample.world Sample.desk) [7%nat]
  = (Raise (KeyError "title"), [7%nat]) /\
  Things3.planned_minutes Sample.anonymous Sample.desk = [30] /\
  Things3.get_minutes_today Sample.anonymous (Sample.world Sample.desk) [7%nat]
  = (Raise (KeyError "title"), [7%nat]) /\
  Things3.planned_minutes Sample.anonymous Sample.busy
  = [9223372036854775807; 1] /\
  Things3.get_minutes_today Sample.anonymous (Sample.world Sample.busy) [7%nat]
  = (Raise (SystemExit 2), [7%nat]) /\
  TABLE_AREA Sample.desk <> [] /\
  exists g',
    Things3.get_areas Sample.anonymous (Sample.world Sample.desk) [7%nat]
    = (Raise (KeyError "context"), g').
Proof.
  pose proof (anonymizer_needs_title_and_context Sample.anonymous
                (Sample.world Sample.desk) Sample.path Sample.desk [7%nat]
                eq_refl eq_refl eq_refl) as (Hdays & Hminutes & _ & _ & Hareas & _).
  pose proof (anonymizer_needs_title_and_context Sample.anonymous
                (Sample.world Sample.busy) Sample.path Sample.busy [7%nat]
                eq_refl eq_refl eq_refl) as (_ & _ & Hoverflow & _).
  split; [exact Hdays |]. split; [vm_compute; reflexivity |].
  split; [apply (Hminutes 30); vm_compute; reflexivity |].
  split; [vm_compute; reflexivity |].
  split; [apply Hoverflow; vm_compute; reflexivity |].
  split; [discriminate |]. apply Hareas. discriminate.
Defined.


(** ** The web wrapper *)

Lemma functions_names (command : string) :
  is_Some (Things3.functions !! command) <-> command ∈ (task_views ++ direct_views)%list.
Proof.
  split.
  - intros [func Hfunc].
    functions_cases Hfunc; unfold task_views, direct_views; simpl; repeat constructor.
  - unfold task_views, direct_views. simpl. intros Hcommand.
    repeat (apply elem_of_cons in Hcommand as [-> | Hcommand];
            [eexists; reflexivity |]).
    now apply elem_of_nil in Hcommand.
Qed.

(** X11.  Whenever [api] returns, it returns JSON; the status is 200
    exactly for the twenty names of [functions] and 404 for every other
    name, and under status 200 the body holds exactly the records the
    named view returned. *)
Theorem api_answers
    (self : Things3API.t) (world : World) (command : string) (g g' : rng)
    (answer : Response) :
  Things3API.api self world command g = (Return answer, g') ->
  content_type answer = Some "application/json" /\
  (status answer = 200 \/ status answer = 404) /\
  (status answer = 200 <-> command ∈ (task_views ++ direct_views)%list) /\
  (status answer = 200 ->
   exists (func : view) rows,
     Things3.functions !! command = Some func /\
     func (Things3API.things3 self) world g = (Return rows, g') /\
     response answer = Some (json_dumps rows)).
Proof.
  unfold Things3API.api. intros Hrun.
  rewrite <- functions_names.
  destruct (Things3.functions !! command) as [func |] eqn:Hfunc.
  - apply bind_Return_inv in Hrun as (rows & g1 & Hrows & Hret).
    injection Hret as <- <-. simpl.
    split; [reflexivity |]. split; [now left |].
    split; [split; eauto |].
    intros _. exists func, rows. auto.
  - injection Hrun as <- <-. simpl.
    split; [reflexivity |]. split; [now right |].
    split; [| discriminate].
    split; [discriminate | intros [? [=]]].
Qed.

Lemma api_answers_witness :
  exists answer,
    Things3API.api (Things3API.mk Sample.things3) (Sample.world Sample.desk)
      "areas" [] = (Return answer, []) /\
    content_type answer = Some "application/json" /\
    (status answer = 200 \/ status answer = 404) /\
    (status answer = 200 <-> "areas" ∈ (task_views ++ direct_views)%list) /\
    (status answer = 200 ->
     exists (func : view) rows,
       Things3.functions !! "areas" = Some func /\
       func Sample.things3 (Sample.world Sample.desk) [] = (Return rows, []) /\
       response answer = Some (json_dumps rows)).
Proof.
  eexists. split; [vm_compute; reflexivity |].
  apply (api_answers (Things3API.mk Sample.things3) (Sample.world Sample.desk)
           "areas" [] []).
  vm_compute; reflexivity.
Defined.


Lemma set_filter_set_filter self f f' :
  Things3API.set_filter (Things3API.set_filter self f) f'
  = Things3API.set_filter self f'.
Proof. reflexivity. Qed.

(** X12.  Scope filters replace each other, they do not add up: after a
    call of [api_filter] that sets a scope, the engine is in the state
    that this call alone would have produced, whatever calls of
    [api_filter] came before; and no call touches the mode, the store
    location, the tag names or the anonymizer. *)
Theorem api_filter_last_wins
    (self : Things3API.t) (mode1 uuid1 mode2 uuid2 : string) :
  uuid2 <> "" ->
  mode2 = "area" \/ mode2 = "project" ->
  let first := (Things3API.api_filter self mode1 uuid1).1 in
  (Things3API.api_filter first mode2 uuid2).1
  = (Things3API.api_filter self mode2 uuid2).1 /\
  Things3.IS_TASK (Things3API.things3 first)
  = Things3.IS_TASK (Things3API.things3 self) /\
  Things3.database (Things3API.things3 first)
  = Things3.database (Things3API.things3 self) /\
  Things3.tag_waiting (Things3API.things3 first)
  = Things3.tag_waiting (Things3API.things3 self) /\
  Things3.tag_mit (Things3API.things3 first)
  = Things3.tag_mit (Things3API.things3 self) /\
  Things3.tag_cleanup (Things3API.things3 first)
  = Things3.tag_cleanup (Things3API.things3 self) /\
  Things3.anonymize (Things3API.things3 first)
  = Things3.anonymize (Things3API.things3 self).
Proof.
  intros Huuid Hmode first. subst first. unfold Things3API.api_filter.
  destruct (String.eqb_spec uuid2 "") as [| _]; [contradiction |].
  destruct (String.eqb mode1 "area" && negb (String.eqb uuid1 "")),
    (String.eqb mode1 "project" && negb (String.eqb uuid1 ""));
    destruct Hmode as [-> | ->]; simpl; repeat split; reflexivity.
Qed.

Lemma api_filter_last_wins_witness :
  (Things3API.api_filter
     (Things3API.api_filter (Things3API.mk Sample.things3) "area" "A").1
     "project" "P").1
  = (Things3API.api_filter (Things3API.mk Sample.things3) "project" "P").1.
Proof.
  apply (api_filter_last_wins (Things3API.mk Sample.things3)
           "area" "A" "project" "P").
  - discriminate.
  - now right.
Defined.

(** X13.  [api_filter_reset] undoes every scope: after any call of
    [api_filter] it leaves the engine in the state that a reset alone
    would have produced, and an engine fresh from the constructor in its
    initial state. *)
Theorem api_filter_reset_undoes
    (self : Things3API.t) (os : Process) (database : option pyval)
    (mode uuid : string) :
  (Things3API.api_filter_reset (Things3API.api_filter self mode uuid).1).1
  = (Things3API.api_filter_reset self).1 /\
  (Things3API.api_filter_reset
     (Things3API.api_filter (Things3API.__init__ os database) mode uuid).1).1
  = Things3API.__init__ os database.
Proof.
  unfold Things3API.api_filter, Things3API.api_filter_reset.
  split;
    destruct (String.eqb mode "area" && negb (String.eqb uuid "")),
      (String.eqb mode "project" && negb (String.eqb uuid ""));
    reflexivity.
Qed.

(** ** The constructor *)

(** X14.  The anonymizer is switched by the truth value of whatever was
    chosen.  An [anonymize] argument decides alone, by its own truth
    value.  Without one, any non-empty text in the environment variable
    ANONYMIZE switches it on, "false" and "0" included; else any
    non-empty entry of the config file does; else it is off. *)
Theorem anonymize_setting
    (os : Process)
    (database tag_waiting tag_mit tag_cleanup anonymize : option pyval) :
  let self :=
    Things3.__init__ os database tag_waiting tag_mit tag_cleanup anonymize in
  (forall v, anonymize = Some v ->
     truthy (Things3.anonymize self) = truthy v) /\
  (anonymize = None ->
   forall e, environ os "ANONYMIZE" = Some e -> e <> "" ->
     truthy (Things3.anonymize self) = true) /\
  (anonymize = None ->
   environ os "ANONYMIZE" = None \/ environ os "ANONYMIZE" = Some "" ->
   forall section c,
     config os "DATABASE" = Some section -> section "ANONYMIZE" = Some c ->
     truthy (Things3.anonymize self) = negb (String.eqb c "")) /\
  (anonymize = None ->
   environ os "ANONYMIZE" = None \/ environ os "ANONYMIZE" = Some "" ->
   config os "DATABASE" = None \/
   (exists section, config os "DATABASE" = Some section /\
                    section "ANONYMIZE" = None) ->
   truthy (Things3.anonymize self) = false).
Proof.
  intros self. subst self. unfold Things3.__init__; cbn [Things3.anonymize].
  unfold Things3.if_else, Things3.get_from_config.
  repeat split.
  - intros v ->. destruct (truthy v) eqn:Hv; [exact Hv | reflexivity].
  - intros -> e He Hne. rewrite He. simpl.
    apply String.eqb_neq in Hne. repeat (rewrite Hne; cbn). reflexivity.
  - intros -> [He | He] section c Hsection Hc; rewrite He, Hsection, Hc; simpl;
      destruct (String.eqb c "") eqn:Hempty; simpl; rewrite ?Hempty; reflexivity.
  - intros -> [He | He] [Hconfig | (section & Hsection & Hc)]; rewrite He;
      simpl; rewrite ?Hconfig, ?Hsection, ?Hc; reflexivity.
Qed.

Lemma anonymize_setting_witness :
  environ Sample.shy "ANONYMIZE" = Some "false" /\
  truthy
    (Things3.anonymize (Things3.__init__ Sample.shy None None None None None))
  = true.
Proof.
  split; [reflexivity |].
  apply (proj1 (proj2 (anonymize_setting Sample.shy None None None None None))
           eq_refl "false" eq_refl).
  discriminate.
Defined.

(** ** Static files *)

Lemma list_ascii_of_string_app (s r : string) :
  list_ascii_of_string (s ++ r)
  = (list_ascii_of_string s ++ list_ascii_of_string r)%list.
Proof. induction s as [| c s IH]; simpl; [reflexivity | now rewrite IH]. Qed.

(** A suffix without a slash lies within the last path component. *)
Lemma suffix_after_slash (suffix directory name : list ascii) :
  "/"%char ∉ suffix ->
  suffix `suffix_of` ((directory ++ ["/"%char]) ++ name)%list <->
  suffix `suffix_of` name.
Proof.
  intros Hslash. split; [| apply suffix_app_r].
  revert suffix Hslash.
  induction name as [| x name IH] using rev_ind; intros suffix Hslash Hsuffix.
  - rewrite app_nil_r in Hsuffix.
    destruct suffix as [| c suffix _] using rev_ind; [reflexivity |].
    apply suffix_snoc_inv_1 in Hsuffix as ->.
    exfalso. apply Hslash. apply elem_of_app. right. left.
  - destruct suffix as [| c suffix _] using rev_ind; [apply suffix_nil |].
    rewrite app_assoc in Hsuffix.
    pose proof (suffix_snoc_inv_1 _ _ _ _ Hsuffix) as ->.
    apply suffix_snoc_inv_2 in Hsuffix.
    apply suffix_snoc. apply IH; [| exact Hsuffix].
    intros Hin. apply Hslash. apply elem_of_app. now left.
Qed.

Lemma endswith_PATH (cwd url suffix : string) :
  "/"%char ∉ list_ascii_of_string suffix ->
  endswith (Things3API.PATH cwd ++ url) suffix = endswith url suffix.
Proof.
  intros Hslash. unfold endswith, Things3API.PATH.
  apply bool_decide_ext.
  rewrite !list_ascii_of_string_app.
  change (list_ascii_of_string "/resources/")
    with (list_ascii_of_string "/resources" ++ ["/"%char])%list.
  rewrite (app_assoc (list_ascii_of_string cwd)).
  now apply suffix_after_slash.
Qed.

(** No text ends in two of the six endings. *)
Lemma endswith_exclusive (s a b : string) :
  endswith s a = true -> endswith s b = true ->
  endswith a b = true \/ endswith b a = true.
Proof.
  unfold endswith. rewrite !bool_decide_eq_true. intros Ha Hb.
  destruct (suffix_weak_total _ _ _ Ha Hb); auto.
Qed.

Ltac endings_clash :=
  match goal with
  | Ha : endswith ?s ?a = true, Hb : endswith ?s ?b = true |- _ =>
      destruct (endswith_exclusive s a b Ha Hb) as [H | H]; discriminate H
  end.

Ltac no_slash :=
  let H := fresh in
  simpl; intros H;
  repeat (apply elem_of_cons in H as [H | H]; [discriminate H |]);
  now apply elem_of_nil in H.

(** X15.  The content type [on_get] gives a file depends on the url
    alone, not on the working directory, and on no more than its last
    characters: one of the six endings css, html, js, png, jpg, ico (no
    dot is asked for, and no url has two of them) selects its type, any
    other url is served as application/json.  A file that cannot be read
    is not answered: the exception of [open] leaves [on_get]. *)
Theorem on_get_content_type
    (cwd : string) (open_rb : string -> result string) (url : string) :
  exists content_type,
    Things3API.on_get cwd open_rb url
    = match open_rb (Things3API.PATH cwd ++ url) with
      | Return data =>
          Return {| file_data := data; file_content_type := content_type |}
      | Raise e => Raise e
      end /\
    (endswith url "css" = true -> content_type = "text/css") /\
    (endswith url "html" = true -> content_type = "text/html") /\
    (endswith url "js" = true -> content_type = "text/javascript") /\
    (endswith url "png" = true -> content_type = "image/png") /\
    (endswith url "jpg" = true -> content_type = "image/jpeg") /\
    (endswith url "ico" = true -> content_type = "image/x-ico") /\
    (endswith url "css" = false -> endswith url "html" = false ->
     endswith url "js" = false -> endswith url "png" = false ->
     endswith url "jpg" = false -> endswith url "ico" = false ->
     content_type = "application/json").
Proof.
  unfold Things3API.on_get. cbv zeta.
  rewrite !endswith_PATH by no_slash.
  destruct (endswith url "css") eqn:Hcss, (endswith url "html") eqn:Hhtml,
    (endswith url "js") eqn:Hjs, (endswith url "png") eqn:Hpng,
    (endswith url "jpg") eqn:Hjpg, (endswith url "ico") eqn:Hico;
    try endings_clash;
    (eexists; split; [reflexivity |]);
    repeat split; intros; first [reflexivity | discriminate].
Qed.

(** ** Rows as dictionaries *)

Lemma dict_get_dict_set d key v key' g :
  dict_get (dict_set d key v) key' g
  = if String.eqb key key' then (Return v, g) else dict_get d key' g.
Proof.
  induction d as [| [k w] d IH]; simpl.
  - destruct (String.eqb key key'); reflexivity.
  - destruct (String.eqb_spec k key) as [-> | Hk]; simpl.
    + destruct (String.eqb key key'); reflexivity.
    + destruct (String.eqb_spec k key') as [-> | Hk']; [| exact IH].
      apply String.eqb_neq in Hk. rewrite String.eqb_sym in Hk.
      now rewrite Hk.
Qed.

Lemma dict_factory_from_other d description row key g :
  key ∉ description ->
  dict_get (dict_factory_from d description row) key g = dict_get d key g.
Proof.
  revert d row. induction description as [| c description IH]; intros d row Hkey.
  - reflexivity.
  - destruct row as [| v row]; [reflexivity |]. simpl.
    apply not_elem_of_cons in Hkey as [Hc Hkey].
    rewrite IH by exact Hkey. rewrite dict_get_dict_set.
    destruct (String.eqb_spec c key); [congruence | reflexivity].
Qed.

Lemma dict_factory_from_last d description row key i v g :
  description !! i = Some key -> row !! i = Some v ->
  key ∉ drop (S i) description ->
  dict_get (dict_factory_from d description row) key g = (Return v, g).
Proof.
  revert d row i.
  induction description as [| c description IH]; intros d row i Hkey Hv Hlast.
  - discriminate.
  - destruct row as [| w row]; [discriminate |].
    destruct i as [| i]; simpl in *.
    + injection Hkey as ->. injection Hv as ->.
      rewrite drop_0 in Hlast.
      rewrite dict_factory_from_other by exact Hlast.
      rewrite dict_get_dict_set. now rewrite String.eqb_refl.
    + eapply IH; eassumption.
Qed.

Lemma dict_set_fresh d key v :
  key ∉ d.*1 -> dict_set d key v = (d ++ [(key, v)])%list.
Proof.
  induction d as [| [k w] d IH]; csimpl; intros Hkey; [reflexivity |].
  apply not_elem_of_cons in Hkey as [Hk Hkey].
  destruct (String.eqb_spec k key); [congruence |].
  now rewrite IH.
Qed.

Lemma dict_factory_from_zip d description row :
  NoDup (d.*1 ++ description) ->
  dict_factory_from d description row = (d ++ zip description row)%list.
Proof.
  revert d row.
  induction description as [| c description IH]; intros d row Hnodup; simpl.
  - now rewrite app_nil_r.
  - destruct row as [| v row]; [now rewrite app_nil_r |].
    apply NoDup_app in Hnodup as (Hd & Hfresh & Hdescription).
    apply NoDup_cons in Hdescription as [Hc Hdescription].
    assert (c ∉ d.*1) as Hcd by (intros Hin; apply (Hfresh c Hin); left).
    rewrite dict_set_fresh by exact Hcd.
    rewrite IH.
    + now rewrite <- app_assoc.
    + rewrite fmap_app. csimpl. rewrite <- app_assoc. simpl.
      apply NoDup_app. split; [exact Hd |]. split.
      * intros x Hx. apply Hfresh in Hx.
        intros [-> | Hx']%elem_of_cons; [| apply Hx; now right].
        apply Hx. left.
      * now apply NoDup_cons.
Qed.

(** X16.  [dict_factory] on a row with as many values as the statement
    has columns: a name that is no column raises [KeyError]; a column
    name that occurs once or more gives the value of its last
    occurrence; and when the names are distinct, the dictionary lists
    the columns with their values in the order of the statement. *)
Theorem dict_factory_columns
    (description : list string) (row : list value) (key : string) (g : rng) :
  length description = length row ->
  (key ∉ description ->
   dict_get (dict_factory description row) key g = (Raise (KeyError key), g)) /\
  (forall i v,
     description !! i = Some key -> row !! i = Some v ->
     key ∉ drop (S i) description ->
     dict_get (dict_factory description row) key g = (Return v, g)) /\
  (NoDup description ->
   dict_factory description row = zip description row /\
   length (dict_factory description row) = length row).
Proof.
  intros Hlength. unfold dict_factory. split; [| split].
  - intros Hkey. now rewrite dict_factory_from_other.
  - intros i v. apply dict_factory_from_last.
  - intros Hnodup. rewrite dict_factory_from_zip by exact Hnodup.
    split; [reflexivity |]. simpl. rewrite length_zip. lia.
Qed.

Lemma dict_factory_columns_witness :
  dict_get (dict_factory ["uuid"; "title"; "uuid"] [TEXT "first"; NULL; TEXT "last"])
    "uuid" []
  = (Return (TEXT "last"), []).
Proof.
  apply (proj1 (proj2 (dict_factory_columns ["uuid"; "title"; "uuid"]
                         [TEXT "first"; NULL; TEXT "last"] "uuid" [] eq_refl))
           2%nat (TEXT "last") eq_refl eq_refl).
  simpl. apply not_elem_of_nil.
Defined.

(** ** The scrambler and the random generator *)

Lemma randbelow_drop n g : exists j, randbelow n g = (Return j, drop 1 g).
Proof. destruct g as [| r g]; simpl; eauto. Qed.

Lemma shuffle_from_drop {A} (i : nat) (x : list A) (g : rng) :
  exists y, shuffle_from i x g = (Return y, drop i g) /\ y ≡ₚ x.
Proof.
  revert x g. induction i as [| i IH]; intros x g; simpl.
  - exists x. now rewrite drop_0.
  - destruct (randbelow_drop (S (S i)) g) as (j & Hj).
    destruct (IH (swap x (S i) j) (drop 1 g)) as (y & Hy & Hperm).
    exists y. split.
    + erewrite bind_Return by exact Hj. rewrite Hy.
      now rewrite drop_drop.
    + rewrite Hperm. apply swap_Permutation.
Qed.

(** X17.  [anonymize_string] always returns on a text or on None.  None
    comes back as None without a call of the random generator; a text
    comes back as a text with the same characters, each as often as
    before, after exactly one call of the generator for each character
    but the first; a text of at most one character comes back
    unchanged. *)
Theorem anonymize_string_draws (s : string) (g : rng) :
  anonymize_string NULL g = (Return NULL, g) /\
  exists s',
    anonymize_string (TEXT s) g
    = (Return (TEXT s'), drop (String.length s - 1) g) /\
    list_ascii_of_string s' ≡ₚ list_ascii_of_string s /\
    String.length s' = String.length s /\
    ((String.length s <= 1)%nat -> s' = s).
Proof.
  split; [reflexivity |].
  destruct (shuffle_from_drop (length (list_ascii_of_string s) - 1)
              (list_ascii_of_string s) g) as (y & Hy & Hperm).
  exists (string_of_list_ascii y).
  rewrite list_ascii_of_string_of_list_ascii.
  split; [| split; [exact Hperm | split]].
  - unfold anonymize_string, shuffle.
    erewrite bind_Return by exact Hy.
    now rewrite length_list_ascii_of_string.
  - rewrite <- !length_list_ascii_of_string,
      list_ascii_of_string_of_list_ascii.
    now apply Permutation_length.
  - intros Hshort. rewrite <- (string_of_list_ascii_of_string s). f_equal.
    destruct s as [| c [| c' s]]; simpl in *; try lia.
    + now apply Permutation_nil_r in Hperm.
    + now apply Permutation_singleton_r in Hperm.
Qed.

(** ** ORDER BY title *)

Lemma Ascii_compare_N (a b : ascii) :
  (a ?= b)%char = (N_of_ascii a ?= N_of_ascii b)%N.
Proof. reflexivity. Qed.

Lemma String_compare_le_trans (s1 s2 s3 : string) :
  (s1 ?= s2)%string <> Gt -> (s2 ?= s3)%string <> Gt -> (s1 ?= s3)%string <> Gt.
Proof.
  revert s2 s3.
  induction s1 as [| c1 s1 IH]; intros [| c2 s2] [| c3 s3]; simpl;
    try congruence.
  rewrite !Ascii_compare_N.
  destruct (N.compare_spec (N_of_ascii c1) (N_of_ascii c2)),
    (N.compare_spec (N_of_ascii c2) (N_of_ascii c3)),
    (N.compare_spec (N_of_ascii c1) (N_of_ascii c3));
    try congruence; try lia.
  apply IH.
Qed.

Lemma String_compare_le_total (s1 s2 : string) :
  (s1 ?= s2)%string <> Gt \/ (s2 ?= s1)%string <> Gt.
Proof.
  rewrite (String.compare_antisym s2 s1).
  destruct (s1 ?= s2)%string; simpl; auto.
Qed.

#[local] Instance title_le_reflexive : Reflexive title_le.
Proof.
  intros [s |]; simpl; [| exact I].
  destruct (String_compare_le_total s s); assumption.
Qed.

#[local] Instance title_le_transitive : Transitive title_le.
Proof.
  intros [s1 |] [s2 |] [s3 |]; simpl; try tauto.
  apply String_compare_le_trans.
Qed.

#[local] Instance title_le_total : Total title_le.
Proof.
  intros [s1 |] [s2 |]; simpl; auto.
  apply String_compare_le_total.
Qed.

Section ByTitle.

Context {R : Type} (title : R -> option string).

Lemma order_le_by_title (a b : R) :
  order_le [(fun r => text_value (title r), ASC)] a b
  <-> title_le (title a) (title b).
Proof.
  unfold order_le. simpl.
  destruct (title a) as [s |], (title b) as [r |]; simpl;
    try (split; [intros _; exact I | discriminate]).
  - destruct (s ?= r)%string; split; congruence.
  - split; [congruence | contradiction].
Qed.

Lemma by_title_reflexive :
  Reflexive (order_le [(fun r : R => text_value (title r), ASC)]).
Proof. intros x. apply order_le_by_title. reflexivity. Qed.

Lemma by_title_transitive :
  Transitive (order_le [(fun r : R => text_value (title r), ASC)]).
Proof. intros x y z. rewrite !order_le_by_title. apply title_le_transitive. Qed.

Lemma by_title_total :
  Total (order_le [(fun r : R => text_value (title r), ASC)]).
Proof. intros x y. rewrite !order_le_by_title. apply title_le_total. Qed.

Lemma ORDER_BY_title_sorted (rows : list R) (i k : nat) (a b : R) :
  (i <= k)%nat ->
  ORDER_BY [(fun r => text_value (title r), ASC)] rows !! i = Some a ->
  ORDER_BY [(fun r => text_value (title r), ASC)] rows !! k = Some b ->
  title_le (title a) (title b).
Proof.
  intros Hik Ha Hb. apply order_le_by_title.
  apply (@StronglySorted_lookup_le _ _ by_title_reflexive _ i k a b
           (@sort_stable_StronglySorted _ _ _ by_title_transitive by_title_total rows)
           Hik Ha Hb).
Qed.

End ByTitle.

(** X18.  With the anonymizer off, "areas" returns every row of [TMArea]
    exactly once, as a record of its uuid and title, in ascending order
    of the titles: an area without a title comes first, then the titles
    byte by byte.  The mode and the scope filter play no part. *)
Theorem get_areas_sorted
    (self : Things3.t) (world : World) (path : string) (db : Snapshot) (g : rng) :
  Things3.database self = PStr path ->
  world path = Return db ->
  truthy (Things3.anonymize self) = false ->
  exists areas,
    Things3.get_areas self world g = (Return (area_row <$> areas), g) /\
    areas ≡ₚ TABLE_AREA db /\
    (forall i k a b, (i <= k)%nat ->
       areas !! i = Some a -> areas !! k = Some b ->
       title_le (TMArea.title a) (TMArea.title b)).
Proof.
  intros Hpath Hdb Hplain.
  exists (ORDER_BY [(fun area => text_value (TMArea.title area), ASC)] (TABLE_AREA db)).
  split; [| split].
  - unfold Things3.get_areas.
    erewrite execute_query_plain by first [eassumption | reflexivity].
    cbn [description fetchall]. now rewrite <- list_fmap_compose.
  - apply sort_stable_Permutation.
  - intros i k a b. apply (ORDER_BY_title_sorted TMArea.title).
Qed.

Lemma get_areas_sorted_witness :
  exists areas,
    Things3.get_areas Sample.things3 (Sample.world Sample.desk) []
      = (Return (area_row <$> areas), []) /\
    areas ≡ₚ TABLE_AREA Sample.desk /\
    (forall i k a b, (i <= k)%nat ->
       areas !! i = Some a -> areas !! k = Some b ->
       title_le (TMArea.title a) (TMArea.title b)).
Proof.
  apply (get_areas_sorted Sample.things3 (Sample.world Sample.desk)
           Sample.path Sample.desk [] eq_refl eq_refl eq_refl).
Defined.


(** X19.  With the anonymizer off, "projects" returns exactly the rows
    of [TMTask] that are projects, open and not trashed, each once, as a
    record of uuid and title with a context that is always NULL, in
    ascending order of the titles (a project without a title first). *)
Theorem get_projects_sorted
    (self : Things3.t) (world : World) (path : string) (db : Snapshot) (g : rng) :
  Things3.database self = PStr path ->
  world path = Return db ->
  truthy (Things3.anonymize self) = false ->
  exists projects,
    Things3.get_projects self world g = (Return (project_row <$> projects), g) /\
    projects ≡ₚ filter open_project (TABLE_TASK db) /\
    (forall i k p q, (i <= k)%nat ->
       projects !! i = Some p -> projects !! k = Some q ->
       title_le (TMTask.title p) (TMTask.title q)).
Proof.
  intros Hpath Hdb Hplain.
  exists (ORDER_BY [(fun task => text_value (TMTask.title task), ASC)]
            (filter open_project (TABLE_TASK db))).
  split; [| split].
  - unfold Things3.get_projects.
    erewrite execute_query_plain by first [eassumption | reflexivity].
    cbn [description fetchall]. rewrite <- list_fmap_compose.
    erewrite (List_filter_stdpp _ open_project); [reflexivity |].
    intros task. cbv zeta.
    unfold open_project, Things3.IS_NOT_TRASHED, Things3.IS_OPEN, Things3.IS_PROJECT.
    rewrite !holds_and, !holds_eq, !col_Some. tauto.
  - apply sort_stable_Permutation.
  - intros i k p q. apply (ORDER_BY_title_sorted TMTask.title).
Qed.

Lemma get_projects_sorted_witness :
  exists projects,
    Things3.get_projects Sample.things3 (Sample.world Sample.desk) []
      = (Return (project_row <$> projects), []) /\
    projects ≡ₚ filter open_project (TABLE_TASK Sample.desk) /\
    (forall i k p q, (i <= k)%nat ->
       projects !! i = Some p -> projects !! k = Some q ->
       title_le (TMTask.title p) (TMTask.title q)).
Proof.
  apply (get_projects_sorted Sample.things3 (Sample.world Sample.desk)
           Sample.path Sample.desk [] eq_refl eq_refl eq_refl).
Defined.


(** ** Tags *)






(** ** One record for each row *)






(** ** Empty projects *)








(** ** Containers and floating rows *)




(** X24.  "lint" lists rows that float: each has no project, no area
    and no heading.  So under a scope for an area or a project the view
    is empty, for a row in such a scope is filed somewhere.  Both hold
    as long as the uuid that [api_filter] pasted into the scope holds no
    quote (with one, the text of the statement means something else). *)
Theorem lint_floats
    (self : Things3.t) (world : World) (path : string) (db : Snapshot)
    (g g' : rng) (rows : list dict) :
  Things3.database self = PStr path ->
  world path = Return db ->
  scope_quote_free (Things3.filter self) ->
  Things3.get_lint self world g = (Return rows, g') ->
  (forall row, row ∈ rows ->
     exists task,
       task ∈ TABLE_TASK db /\ shows row task /\
       TMTask.project task = None /\ TMTask.area task = None /\
       TMTask.actionGroup task = None) /\
  (Things3.filter self <> no_filter -> rows = []).
Proof.
  intros Hpath Hdb _ Hrun.
  assert (forall row, row ∈ rows ->
            exists j, joined_in db j /\ shows row (TASK j) /\
                      in_scope (Things3.filter self) j /\
                      TMTask.project (TASK j) = None /\
                      TMTask.area (TASK j) = None /\
                      TMTask.actionGroup (TASK j) = None) as Hfloat.
  { intros row Hrow. unfold Things3.get_lint in Hrun.
    destruct (proj1 (get_rows_selected _ _ _ _ _ _ _ _ Hpath Hdb Hrun) _ Hrow)
      as (j & Hj & Huuid & _).
    apply selected_conditions in Hj as (Hin & Hscope & Hwhere & _).
    sql_props Hwhere. exists j. tauto. }
  split.
  - intros row Hrow.
    destruct (Hfloat row Hrow) as (j & Hin & Huuid & _ & Hfloating).
    exists (TASK j). split; [apply Hin |]. split; [exact Huuid | exact Hfloating].
  - intros Hscoped. apply elem_of_nil_inv. intros row Hrow.
    destruct (Hfloat row Hrow)
      as (j & Hin & _ & Hscope & Hproject & Harea & Hgroup).
    destruct Hin as (_ & _ & _ & Hheading & _).
    destruct (Things3.filter self) as [| uuid | uuid]; simpl in Hscope.
    + now apply Hscoped.
    + congruence.
    + destruct Hscope as [Hp | (h & Hh & _)]; [congruence |].
      rewrite Hh, Hgroup in Hheading. now destruct Hheading.
Qed.

Lemma lint_floats_witness :
  exists rows,
    Things3.get_lint Sample.things3 (Sample.world Sample.desk) []
      = (Return rows, []) /\
    length rows = 2%nat /\
    (forall row, row ∈ rows ->
       exists task,
         task ∈ TABLE_TASK Sample.desk /\ shows row task /\
         TMTask.project task = None /\ TMTask.area task = None /\
         TMTask.actionGroup task = None) /\
    Things3.get_lint
      (Things3API.things3
         (Things3API.api_filter (Things3API.mk Sample.things3) "area" "A").1)
      (Sample.world Sample.desk) [] = (Return [], []).
Proof.
  eexists. split; [vm_compute; reflexivity |]. split; [reflexivity |].
  split.
  - apply (lint_floats Sample.things3 (Sample.world Sample.desk)
             Sample.path Sample.desk [] [] _ eq_refl eq_refl I).
    vm_compute; reflexivity.
  - vm_compute; reflexivity.
Defined.


(** ** The clock *)




